(** * CryptoStrategyLab: position accounting and the per-bar order engine

    A shallow embedding of [code/strategies/tools.py],
    [code/strategies/simple_sma.py] and [code/strategies/envelope.py].

    Modelling choices, valid for the whole development:
    - Python floats are an abstract numeric interface [Arith]; the engine and
      every statement about its control flow are generic in it, so they hold
      whatever the arithmetic and the comparisons compute.  Algebraic
      statements are proved on the instance of exact rationals ([Qc]).
    - Attribute mutation is explicit state passing on records.
    - A Python exception ends the run with [Crashed], [sys.exit()] with
      [Liquidated]; both keep the state the object had at that point.
    - The indicator columns computed by the external [ta] package
      ([average], [fastMA], [slowMA], [trend]) are given columns of the
      input rows. *)

From Stdlib Require Import ZArith QArith Qabs Qcanon Qround List String Bool Lia.
From Stdlib Require Import DecimalString Lqa.
Import ListNotations.

Set Implicit Arguments.
Open Scope string_scope.

(** ** Numbers *)

(** The arithmetic of the program.  [lit] reads a literal or converts an
    integer; [x >= y] is [leb y x] and [x > y] is [ltb y x]. Division is
    total, as it is on the [numpy.float64] cells of a data-frame row. *)
Class Arith : Type := {
  num : Type;
  lit : Q -> num;
  fadd : num -> num -> num;
  fsub : num -> num -> num;
  fmul : num -> num -> num;
  fdiv : num -> num -> num;
  fabs : num -> num;
  round4 : num -> num;
  leb : num -> num -> bool;
  ltb : num -> num -> bool
}.

Definition geb {A : Arith} (x y : num) : bool := leb y x.
Definition gtb {A : Arith} (x y : num) : bool := ltb y x.
Definition zlit {A : Arith} (z : Z) : num := lit (inject_Z z).
Definition nlit {A : Arith} (n : nat) : num := lit (inject_Z (Z.of_nat n)).

(** [round(x, 4)] on an exact rational: nearest multiple of 1/10000, ties to
    the even one. *)
Definition Qround4 (x : Q) : Q :=
  let y := Qmult x (10000 # 1) in
  let f := Qfloor y in
  let d := Qminus y (inject_Z f) in
  let up :=
    match Qcompare d (1 # 2) with
    | Lt => false
    | Gt => true
    | Eq => Z.odd f
    end in
  Qdiv (inject_Z (if up then f + 1 else f)%Z) (10000 # 1).

#[export] Instance QcArith : Arith := {|
  num := Qc;
  lit := Q2Qc;
  fadd := Qcplus;
  fsub := Qcminus;
  fmul := Qcmult;
  fdiv := Qcdiv;
  fabs := fun x => Q2Qc (Qabs (this x));
  round4 := fun x => Q2Qc (Qround4 (this x));
  leb := fun x y => Qle_bool (this x) (this y);
  ltb := fun x y => negb (Qle_bool (this y) (this x))
|}.

(** ** Outcomes of Python code *)

Inductive PyExn : Type :=
| ValueError | KeyError | TypeError | AttributeError
| UnboundLocalError | ZeroDivisionError.

(** A pure computation that may raise. *)
Inductive result (T : Type) : Type :=
| Ok (v : T)
| Raise (e : PyExn).
Arguments Ok {T} v.
Arguments Raise {T} e.

Definition rbind {T U : Type} (r : result T) (k : T -> result U) : result U :=
  match r with
  | Ok v => k v
  | Raise e => Raise e
  end.

(** [row[key]] on a column that set-up may not have created. *)
Definition column {T : Type} (c : option T) : result T :=
  match c with
  | Some v => Ok v
  | None => Raise KeyError
  end.

Inductive Side : Type := Long | Short.

Definition side_name (sd : Side) : string :=
  match sd with Long => "long" | Short => "short" end.

Definition Side_eqb (a b : Side) : bool :=
  match a, b with
  | Long, Long | Short, Short => true
  | _, _ => false
  end.

(** What the liquidation branch prints before [sys.exit()]. *)
Record LiquidationMsg (N : Type) : Type := {
  liq_side : Side;
  liq_time : Z;
  liq_price : N
}.

(** The three ways one bar, or a whole run, can end. *)
Inductive Outcome (S N : Type) : Type :=
| Continue (s : S)
| Crashed (e : PyExn) (s : S)
| Liquidated (m : LiquidationMsg N) (s : S).
Arguments Continue {S N} s.
Arguments Crashed {S N} e s.
Arguments Liquidated {S N} m s.

Definition final_state {S N : Type} (o : Outcome S N) : S :=
  match o with
  | Continue s | Crashed _ s | Liquidated _ s => s
  end.

Definition and_then {S N : Type} (o : Outcome S N) (k : S -> Outcome S N)
  : Outcome S N :=
  match o with
  | Continue s => k s
  | other => other
  end.

(** Runs a pure step that may raise inside a state [s]. *)
Definition try_in {S N T : Type} (s : S) (r : result T) (k : T -> Outcome S N)
  : Outcome S N :=
  match r with
  | Ok v => k v
  | Raise e => Crashed e s
  end.

(** ** tools.py *)

Module Tools.
Section WithArith.
Context {A : Arith}.

(** The price columns of a row that the position checks read. *)
Record Bar : Type := {
  bar_open : num;
  high : num;
  low : num;
  close_px : num
}.

(** [Position]. Fields that are [None] until the first [open] hold a
    placeholder; [behavior = None] records that state, in which Python
    raises on any use of them. *)
Record Position : Type := {
  leverage : Z;
  open_fee_rate : num;
  close_fee_rate : num;
  side : option Side;
  open_time : Z;
  close_time : Z;
  open_price : num;
  close_price : num;
  open_reason : string;
  close_reason : string;
  open_fee : num;
  close_fee : num;
  initial_margin : num;
  open_notional_value : num;
  close_notional_value : num;
  amount : num;
  net_pnl : num;
  net_pnl_pct : num;
  sl_price : option num;
  tp_price : option num;
  liquidation_price : num;
  behavior : option Side
}.

(** [Position.__init__] with [open_fee_rate] and [close_fee_rate] resolved. *)
Definition new_position (lev : Z) (ofr cfr : num) : Position := {|
  leverage := lev; open_fee_rate := ofr; close_fee_rate := cfr;
  side := None; open_time := 0; close_time := 0;
  open_price := lit 0; close_price := lit 0;
  open_reason := ""; close_reason := "";
  open_fee := lit 0; close_fee := lit 0; initial_margin := lit 0;
  open_notional_value := lit 0; close_notional_value := lit 0;
  amount := lit 0; net_pnl := lit 0; net_pnl_pct := lit 0;
  sl_price := None; tp_price := None; liquidation_price := lit 0;
  behavior := None
|}.

(** [Position.__init__]: [fee_rate] is the default of both rates. *)
Definition Position_init (lev : Z) (fee_rate : num) (ofr cfr : option num)
  : Position :=
  new_position lev
    (match ofr with None => fee_rate | Some r => r end)
    (match cfr with None => fee_rate | Some r => r end).

(** The bound behaviour object; a position never opened has none. *)
Definition bound_behavior (p : Position) : result Side :=
  match behavior p with
  | Some b => Ok b
  | None => Raise AttributeError
  end.

(** [LongPositionBehavior.calculate_pnl] / [ShortPositionBehavior.calculate_pnl]. *)
Definition behavior_pnl (b : Side) (p : Position) (price amt : num) : num :=
  match b with
  | Long => fmul amt (fsub price (open_price p))
  | Short => fmul amt (fsub (open_price p) price)
  end.

(** [calculate_liquidation_price] of the two behaviours; [1 / leverage]
    divides Python integers and raises on zero. *)
Definition behavior_liquidation_price (b : Side) (p : Position) (price : num)
  : result num :=
  if (leverage p =? 0)%Z then Raise ZeroDivisionError
  else
    match b with
    | Long => Ok (fmul price (fsub (lit 1) (fdiv (lit 1) (zlit (leverage p)))))
    | Short => Ok (fmul price (fadd (lit 1) (fdiv (lit 1) (zlit (leverage p)))))
    end.

(** A comparison with a price that is still [None] raises [TypeError]. *)
Definition against {T : Type} (limit : option num) (k : num -> T) : result T :=
  match limit with
  | Some x => Ok (k x)
  | None => Raise TypeError
  end.

Definition behavior_check_for_sl (b : Side) (p : Position) (row : Bar)
  : result bool :=
  match b with
  | Long => against (sl_price p) (fun sl => leb (low row) sl)
  | Short => against (sl_price p) (fun sl => geb (high row) sl)
  end.

Definition behavior_check_for_tp (b : Side) (p : Position) (row : Bar)
  : result bool :=
  match b with
  | Long => against (tp_price p) (fun tp => geb (high row) tp)
  | Short => against (tp_price p) (fun tp => leb (low row) tp)
  end.

Definition behavior_check_for_liquidation (b : Side) (p : Position) (row : Bar)
  : bool :=
  match b with
  | Long => leb (low row) (liquidation_price p)
  | Short => geb (high row) (liquidation_price p)
  end.

Definition calculate_pnl (p : Position) (price amt : num) : result num :=
  rbind (bound_behavior p) (fun b => Ok (behavior_pnl b p price amt)).

Definition calculate_liquidation_price (p : Position) (price : num) : result num :=
  rbind (bound_behavior p) (fun b => behavior_liquidation_price b p price).

Definition check_for_liquidation (p : Position) (row : Bar) : result bool :=
  rbind (bound_behavior p) (fun b => Ok (behavior_check_for_liquidation b p row)).

Definition check_for_sl (p : Position) (row : Bar) : result bool :=
  rbind (bound_behavior p) (fun b => behavior_check_for_sl b p row).

Definition check_for_tp (p : Position) (row : Bar) : result bool :=
  rbind (bound_behavior p) (fun b => behavior_check_for_tp b p row).

Record Metrics : Type := {
  m_open_notional_value : num;
  m_open_fee : num;
  m_amount : num
}.

Definition _calculate_opening_metrics (p : Position) (margin price : num)
  : Metrics :=
  let notional := fmul margin (zlit (leverage p)) in
  let fee := fmul notional (open_fee_rate p) in
  let notional' := fsub notional fee in
  {| m_open_notional_value := notional';
     m_open_fee := fee;
     m_amount := fdiv notional' price |}.

(** [Position.open]. *)
Definition open (p : Position) (time : Z) (sd : Side) (margin price : num)
  (reason : string) (sl tp : option num) : result Position :=
  let m := _calculate_opening_metrics p margin price in
  let opened := {|
    leverage := leverage p;
    open_fee_rate := open_fee_rate p;
    close_fee_rate := close_fee_rate p;
    side := Some sd;
    open_time := time;
    close_time := close_time p;
    open_price := price;
    close_price := close_price p;
    open_reason := reason;
    close_reason := close_reason p;
    open_fee := m_open_fee m;
    close_fee := close_fee p;
    initial_margin := margin;
    open_notional_value := m_open_notional_value m;
    close_notional_value := close_notional_value p;
    amount := m_amount m;
    net_pnl := net_pnl p;
    net_pnl_pct := net_pnl_pct p;
    sl_price := sl;
    tp_price := tp;
    liquidation_price := liquidation_price p;
    behavior := Some sd |} in
  rbind (calculate_liquidation_price opened price) (fun liq =>
  Ok {|
    leverage := leverage opened;
    open_fee_rate := open_fee_rate opened;
    close_fee_rate := close_fee_rate opened;
    side := side opened;
    open_time := open_time opened;
    close_time := close_time opened;
    open_price := open_price opened;
    close_price := close_price opened;
    open_reason := open_reason opened;
    close_reason := close_reason opened;
    open_fee := open_fee opened;
    close_fee := close_fee opened;
    initial_margin := initial_margin opened;
    open_notional_value := open_notional_value opened;
    close_notional_value := close_notional_value opened;
    amount := amount opened;
    net_pnl := net_pnl opened;
    net_pnl_pct := net_pnl_pct opened;
    sl_price := sl_price opened;
    tp_price := tp_price opened;
    liquidation_price := liq;
    behavior := behavior opened |}).

(** [Position.close]. *)
Definition close (p : Position) (time : Z) (price : num) (reason : string)
  : result Position :=
  rbind (calculate_pnl p price (amount p)) (fun pnl =>
  let cnv := fadd (open_notional_value p) pnl in
  let cfee := fmul cnv (close_fee_rate p) in
  let net := fsub (fsub pnl (open_fee p)) cfee in
  Ok {|
    leverage := leverage p;
    open_fee_rate := open_fee_rate p;
    close_fee_rate := close_fee_rate p;
    side := None;
    open_time := open_time p;
    close_time := time;
    open_price := open_price p;
    close_price := price;
    open_reason := open_reason p;
    close_reason := reason;
    open_fee := open_fee p;
    close_fee := cfee;
    initial_margin := initial_margin p;
    open_notional_value := open_notional_value p;
    close_notional_value := cnv;
    amount := amount p;
    net_pnl := net;
    net_pnl_pct := fmul (fdiv net (initial_margin p)) (lit 100);
    sl_price := sl_price p;
    tp_price := tp_price p;
    liquidation_price := liquidation_price p;
    behavior := behavior p |}).

(** [Position.add]; on a position never opened the first product is
    [None * None]. *)
Definition add (p : Position) (margin price : num) (reason : string)
  : result Position :=
  match behavior p with
  | None => Raise TypeError
  | Some _ =>
    let m := _calculate_opening_metrics p margin price in
    let avg :=
      fdiv (fadd (fmul (open_price p) (amount p)) (fmul price (m_amount m)))
          (fadd (amount p) (m_amount m)) in
    let added := {|
      leverage := leverage p;
      open_fee_rate := open_fee_rate p;
      close_fee_rate := close_fee_rate p;
      side := side p;
      open_time := open_time p;
      close_time := close_time p;
      open_price := avg;
      close_price := close_price p;
      open_reason := reason;
      close_reason := close_reason p;
      open_fee := fadd (open_fee p) (m_open_fee m);
      close_fee := close_fee p;
      initial_margin := fadd (initial_margin p) margin;
      open_notional_value := fadd (open_notional_value p) (m_open_notional_value m);
      close_notional_value := close_notional_value p;
      amount := fadd (amount p) (m_amount m);
      net_pnl := net_pnl p;
      net_pnl_pct := net_pnl_pct p;
      sl_price := sl_price p;
      tp_price := tp_price p;
      liquidation_price := liquidation_price p;
      behavior := behavior p |} in
    rbind (calculate_liquidation_price added avg) (fun liq =>
    Ok {|
      leverage := leverage added;
      open_fee_rate := open_fee_rate added;
      close_fee_rate := close_fee_rate added;
      side := side added;
      open_time := open_time added;
      close_time := close_time added;
      open_price := open_price added;
      close_price := close_price added;
      open_reason := open_reason added;
      close_reason := close_reason added;
      open_fee := open_fee added;
      close_fee := close_fee added;
      initial_margin := initial_margin added;
      open_notional_value := open_notional_value added;
      close_notional_value := close_notional_value added;
      amount := amount added;
      net_pnl := net_pnl added;
      net_pnl_pct := net_pnl_pct added;
      sl_price := sl_price added;
      tp_price := tp_price added;
      liquidation_price := liq;
      behavior := behavior added |})
  end.

(** [self.position.sl_price = ...] *)
Definition set_sl_price (p : Position) (sl : option num) : Position := {|
  leverage := leverage p;
  open_fee_rate := open_fee_rate p;
  close_fee_rate := close_fee_rate p;
  side := side p;
  open_time := open_time p;
  close_time := close_time p;
  open_price := open_price p;
  close_price := close_price p;
  open_reason := open_reason p;
  close_reason := close_reason p;
  open_fee := open_fee p;
  close_fee := close_fee p;
  initial_margin := initial_margin p;
  open_notional_value := open_notional_value p;
  close_notional_value := close_notional_value p;
  amount := amount p;
  net_pnl := net_pnl p;
  net_pnl_pct := net_pnl_pct p;
  sl_price := sl;
  tp_price := tp_price p;
  liquidation_price := liquidation_price p;
  behavior := behavior p |}.

(** The dictionary of [Position.info], with the two keys that
    [close_trade] adds ([None] while the key is absent).  [t_tp_price] is
    [None] once the key has been deleted. *)
Record Trade : Type := {
  t_open_time : Z;
  t_close_time : Z;
  t_open_reason : string;
  t_close_reason : string;
  t_open_price : num;
  t_close_price : num;
  t_initial_margin : num;
  t_net_pnl : num;
  t_net_pnl_pct : num;
  t_open_notional_value : num;
  t_close_notional_value : num;
  t_amount : num;
  t_open_fee : num;
  t_close_fee : num;
  t_sl_price : option num;
  t_tp_price : option (option num);
  t_liquidation_price : num;
  t_open_balance : option num;
  t_close_balance : option num
}.

Definition info (p : Position) : Trade := {|
  t_open_time := open_time p;
  t_close_time := close_time p;
  t_open_reason := open_reason p;
  t_close_reason := close_reason p;
  t_open_price := open_price p;
  t_close_price := close_price p;
  t_initial_margin := initial_margin p;
  t_net_pnl := net_pnl p;
  t_net_pnl_pct := net_pnl_pct p;
  t_open_notional_value := open_notional_value p;
  t_close_notional_value := close_notional_value p;
  t_amount := amount p;
  t_open_fee := open_fee p;
  t_close_fee := close_fee p;
  t_sl_price := sl_price p;
  t_tp_price := Some (tp_price p);
  t_liquidation_price := liquidation_price p;
  t_open_balance := None;
  t_close_balance := None
|}.

(** [trade_info["open_balance"] = ob; trade_info["close_balance"] = cb],
    and [del trade_info["tp_price"]] when [del_tp]. *)
Definition with_balances (t : Trade) (ob cb : num) (del_tp : bool) : Trade := {|
  t_open_time := t_open_time t;
  t_close_time := t_close_time t;
  t_open_reason := t_open_reason t;
  t_close_reason := t_close_reason t;
  t_open_price := t_open_price t;
  t_close_price := t_close_price t;
  t_initial_margin := t_initial_margin t;
  t_net_pnl := t_net_pnl t;
  t_net_pnl_pct := t_net_pnl_pct t;
  t_open_notional_value := t_open_notional_value t;
  t_close_notional_value := t_close_notional_value t;
  t_amount := t_amount t;
  t_open_fee := t_open_fee t;
  t_close_fee := t_close_fee t;
  t_sl_price := t_sl_price t;
  t_tp_price := if del_tp then None else t_tp_price t;
  t_liquidation_price := t_liquidation_price t;
  t_open_balance := Some ob;
  t_close_balance := Some cb
|}.

Record EquityPoint : Type := {
  eq_time : Z;
  eq_price : num;
  equity : num
}.

(** [update_equity_record]; returns the new [previous_equity_update_time]
    and the record list. *)
Definition update_equity_record (time : Z) (p : Position) (balance price : num)
  (previous interval : Z) (record : list EquityPoint)
  : result (Z * list EquityPoint) :=
  if (interval <=? time - previous)%Z then
    rbind
      (match side p with
       | Some _ =>
         rbind (calculate_pnl p price (amount p)) (fun unrealized =>
         let cfee := fmul (fadd (open_notional_value p) unrealized) (close_fee_rate p) in
         Ok (fadd balance
               (fsub (fsub (fadd (initial_margin p) unrealized) (open_fee p)) cfee)))
       | None => Ok balance
       end)
      (fun e =>
         Ok (time, (record ++ [{| eq_time := time; eq_price := price; equity := e |}])%list))
  else Ok (previous, record).

End WithArith.
End Tools.

(** ** simple_sma.py *)

Module SimpleSMA.
Import Tools.
Section WithArith.
Context {A : Arith}.

(** [params]; an optional key is an [option]. *)
Record Params : Type := {
  mode : option string;
  fast_ma_period : nat;
  slow_ma_period : nat;
  trend_ma_period : nat;
  position_size_percentage : option num;
  position_size_exposure : option num;
  exposure : option num;
  position_size_fixed_amount : option num
}.

(** One row of [self.data]; a signal column is [None] while it does not
    exist. *)
Record Row : Type := {
  bar : Bar;
  fastMA : num;
  slowMA : num;
  trend : num;
  open_long : option bool;
  close_long : option bool;
  open_short : option bool;
  close_short : option bool
}.

Definition set_long_signals (r : Row) (o c : bool) : Row := {|
  bar := bar r; fastMA := fastMA r; slowMA := slowMA r; trend := trend r;
  open_long := Some o; close_long := Some c;
  open_short := open_short r; close_short := close_short r |}.

Definition set_short_signals (r : Row) (o c : bool) : Row := {|
  bar := bar r; fastMA := fastMA r; slowMA := slowMA r; trend := trend r;
  open_long := open_long r; close_long := close_long r;
  open_short := Some o; close_short := Some c |}.

(** [populate_long_signals]; [prev] is the row that [shift(1)] reads, and a
    comparison with the missing value of the first row is false. *)
Fixpoint populate_long_signals_from (prev : option Row) (data : list (Z * Row))
  : list (Z * Row) :=
  match data with
  | [] => []
  | (t, r) :: rest =>
    let crossed :=
      match prev with
      | Some q => leb (fastMA q) (slowMA q)
      | None => false
      end in
    let o := gtb (fastMA r) (slowMA r) && crossed && gtb (close_px (bar r)) (trend r) in
    (t, set_long_signals r o (ltb (fastMA r) (slowMA r)))
      :: populate_long_signals_from (Some r) rest
  end.

Definition populate_long_signals (data : list (Z * Row)) : list (Z * Row) :=
  populate_long_signals_from None data.

Fixpoint populate_short_signals_from (prev : option Row) (data : list (Z * Row))
  : list (Z * Row) :=
  match data with
  | [] => []
  | (t, r) :: rest =>
    let crossed :=
      match prev with
      | Some q => geb (fastMA q) (slowMA q)
      | None => false
      end in
    let o := ltb (fastMA r) (slowMA r) && crossed && ltb (close_px (bar r)) (trend r) in
    (t, set_short_signals r o (gtb (fastMA r) (slowMA r)))
      :: populate_short_signals_from (Some r) rest
  end.

Definition populate_short_signals (data : list (Z * Row)) : list (Z * Row) :=
  populate_short_signals_from None data.

(** The strategy object once [__init__] has returned. *)
Record Setup : Type := {
  su_params : Params;
  su_data : list (Z * Row);
  su_ignore_shorts : bool;
  su_ignore_longs : bool
}.

Definition valid_mode (m : string) : bool :=
  String.eqb m "long" || String.eqb m "short" || String.eqb m "both".

(** [params.setdefault('mode', 'both')] *)
Definition mode_or_default (m : option string) : string :=
  match m with Some v => v | None => "both" end.

Definition params_with_mode (p : Params) (m : string) : Params := {|
  mode := Some m;
  fast_ma_period := fast_ma_period p;
  slow_ma_period := slow_ma_period p;
  trend_ma_period := trend_ma_period p;
  position_size_percentage := position_size_percentage p;
  position_size_exposure := position_size_exposure p;
  exposure := exposure p;
  position_size_fixed_amount := position_size_fixed_amount p |}.

(** [set_trade_mode] *)
Definition set_trade_mode (p : Params) (data : list (Z * Row)) : result Setup :=
  let m := mode_or_default (mode p) in
  if negb (valid_mode m) then Raise ValueError
  else
    let ignore_shorts := String.eqb m "long" in
    let ignore_longs := String.eqb m "short" in
    let data1 := if negb ignore_longs then populate_long_signals data else data in
    let data2 := if negb ignore_shorts then populate_short_signals data1 else data1 in
    Ok {| su_params := params_with_mode p m; su_data := data2;
          su_ignore_shorts := ignore_shorts; su_ignore_longs := ignore_longs |}.

(** [populate_indicators]: the three moving averages come from [ta]; they
    are the [fastMA], [slowMA] and [trend] columns of the input. *)
Definition populate_indicators (p : Params) (ohlcv : list (Z * Row))
  : list (Z * Row) := ohlcv.

(** [Strategy.__init__] *)
Definition init (p : Params) (ohlcv : list (Z * Row)) : result Setup :=
  set_trade_mode p (populate_indicators p ohlcv).

(** The attributes that [run_backtest] creates and the loop mutates. *)
Record Strategy : Type := {
  params : Params;
  ignore_shorts : bool;
  ignore_longs : bool;
  initial_balance : num;
  balance : num;
  position : Position;
  equity_update_interval : Z;
  previous_equity_update_time : Z;
  trades_info : list Trade;
  equity_record : list EquityPoint
}.

Definition with_account (s : Strategy) (b : num) (p : Position) (ts : list Trade)
  : Strategy := {|
  params := params s; ignore_shorts := ignore_shorts s;
  ignore_longs := ignore_longs s; initial_balance := initial_balance s;
  balance := b; position := p;
  equity_update_interval := equity_update_interval s;
  previous_equity_update_time := previous_equity_update_time s;
  trades_info := ts; equity_record := equity_record s |}.

Definition with_equity (s : Strategy) (prev : Z) (rec : list EquityPoint)
  : Strategy := {|
  params := params s; ignore_shorts := ignore_shorts s;
  ignore_longs := ignore_longs s; initial_balance := initial_balance s;
  balance := balance s; position := position s;
  equity_update_interval := equity_update_interval s;
  previous_equity_update_time := prev;
  trades_info := trades_info s; equity_record := rec |}.

Definition calculate_long_tp_price (r : Row) : num := fmul (close_px (bar r)) (lit (13 # 10)).
Definition calculate_long_sl_price (r : Row) : num := fmul (close_px (bar r)) (lit (85 # 100)).
Definition calculate_short_tp_price (r : Row) : num := fmul (close_px (bar r)) (lit (7 # 10)).
Definition calculate_short_sl_price (r : Row) : num := fmul (close_px (bar r)) (lit (115 # 100)).

(** [calculate_initial_margin]; [Ok None] is the [None] that falls off the
    end of the function. *)
Definition calculate_initial_margin (p : Params) (bal price stop_loss_price : num)
  : result (option num) :=
  match position_size_percentage p with
  | Some pct => Ok (Some (fdiv (fmul bal pct) (lit 100)))
  | None =>
    match position_size_exposure p with
    | Some _ =>
      rbind (column (exposure p)) (fun ex =>
      let amount_at_risk := fdiv (fmul bal ex) (lit 100) in
      Ok (Some (fdiv (fmul amount_at_risk price) (fabs (fsub price stop_loss_price)))))
    | None =>
      match position_size_fixed_amount p with
      | Some fixed => Ok (Some fixed)
      | None => Ok None
      end
    end
  end.

(** A stop or target that is still [None], used as a closing price. *)
Definition price_of (o : option num) : result num := against o (fun x => x).

Definition sl_reason (sd : Side) : string :=
  match sd with Long => "SL long" | Short => "SL short" end.
Definition tp_reason (sd : Side) : string :=
  match sd with Long => "TP long" | Short => "TP short" end.
Definition exit_reason (sd : Side) : string :=
  match sd with Long => "Exit long" | Short => "Exit short" end.
Definition open_reason_of (sd : Side) : string :=
  match sd with Long => "Open long" | Short => "Open short" end.

(** [row["close_long"]] or [row["close_short"]] *)
Definition close_flag (sd : Side) (r : Row) : option bool :=
  match sd with Long => close_long r | Short => close_short r end.

Definition liquidation_msg (sd : Side) (time : Z) (p : Position)
  : LiquidationMsg num :=
  {| liq_side := sd; liq_time := time; liq_price := liquidation_price p |}.

(** [close_trade] *)
Definition close_trade (time : Z) (price : num) (reason : string) (s : Strategy)
  : Outcome Strategy num :=
  try_in s (close (position s) time price reason) (fun p =>
  let open_balance := balance s in
  let bal := fadd (balance s) (fadd (initial_margin p) (net_pnl p)) in
  Continue
    (with_account s bal p
       (trades_info s ++ [with_balances (info p) open_balance bal false]))).

(** The branch of [evaluate_orders] for [self.position.side == sd]. *)
Definition manage_position (sd : Side) (time : Z) (row : Row) (s : Strategy)
  : Outcome Strategy num :=
  let p := position s in
  try_in s (check_for_sl p (bar row)) (fun sl =>
  if sl then
    try_in s (price_of (sl_price p)) (fun px => close_trade time px (sl_reason sd) s)
  else
  try_in s (check_for_liquidation p (bar row)) (fun liq =>
  if liq then Liquidated (liquidation_msg sd time p) s
  else
  try_in s (check_for_tp p (bar row)) (fun tp =>
  if tp then
    try_in s (price_of (tp_price p)) (fun px => close_trade time px (tp_reason sd) s)
  else
  try_in s (column (close_flag sd row)) (fun ex =>
  if ex then close_trade time (close_px (bar row)) (exit_reason sd) s
  else Continue s)))).

(** Sizes and opens one position on side [sd]. *)
Definition enter (sd : Side) (time : Z) (row : Row) (s : Strategy)
  : Outcome Strategy num :=
  let price := close_px (bar row) in
  let sl := match sd with
            | Long => calculate_long_sl_price row
            | Short => calculate_short_sl_price row
            end in
  let tp := match sd with
            | Long => calculate_long_tp_price row
            | Short => calculate_short_tp_price row
            end in
  try_in s (calculate_initial_margin (params s) (balance s) price sl) (fun om =>
  match om with
  | None => Crashed TypeError s
  | Some margin =>
    let s1 := with_account s (fsub (balance s) margin) (position s) (trades_info s) in
    try_in s1
      (open (position s1) time sd margin price (open_reason_of sd) (Some sl) (Some tp))
      (fun p => Continue (with_account s1 (balance s1) p (trades_info s1)))
  end).

(** The [else] branch of [evaluate_orders]: the position is flat. *)
Definition evaluate_entries (time : Z) (row : Row) (s : Strategy)
  : Outcome Strategy num :=
  try_in s (if ignore_longs s then Ok false else column (open_long row)) (fun ol =>
  if ol then enter Long time row s
  else
  try_in s (if ignore_shorts s then Ok false else column (open_short row)) (fun os =>
  if os then enter Short time row s
  else Continue s)).

(** [evaluate_orders] *)
Definition evaluate_orders (time : Z) (row : Row) (s : Strategy)
  : Outcome Strategy num :=
  match side (position s) with
  | Some sd => manage_position sd time row s
  | None => evaluate_entries time row s
  end.

(** One iteration of the loop of [run_backtest]. *)
Definition loop_body (time : Z) (row : Row) (s : Strategy) : Outcome Strategy num :=
  and_then (evaluate_orders time row s) (fun s1 =>
  try_in s1
    (update_equity_record time (position s1) (balance s1) (close_px (bar row))
       (previous_equity_update_time s1) (equity_update_interval s1)
       (equity_record s1))
    (fun pr => Continue (with_equity s1 (fst pr) (snd pr)))).

Fixpoint run_rows (data : list (Z * Row)) (s : Strategy) : Outcome Strategy num :=
  match data with
  | [] => Continue s
  | (time, row) :: rest => and_then (loop_body time row s) (run_rows rest)
  end.

(** Timestamps count seconds; [datetime(1900, 1, 1)] and one day. *)
Definition epoch_1900 : Z := (-2208988800)%Z.
Definition one_day : Z := 86400%Z.

(** The state that [run_backtest] builds before its loop. *)
Definition start (su : Setup) (initial_bal : num) (lev : Z) (fee_rate : num)
  : Strategy := {|
  params := su_params su;
  ignore_shorts := su_ignore_shorts su;
  ignore_longs := su_ignore_longs su;
  initial_balance := initial_bal;
  balance := initial_bal;
  position := Position_init lev fee_rate None None;
  equity_update_interval := one_day;
  previous_equity_update_time := epoch_1900;
  trades_info := [];
  equity_record := [] |}.

(** [run_backtest], up to the end of its loop (what follows turns the two
    lists into data frames). *)
Definition run_backtest (su : Setup) (initial_bal : num) (lev : Z) (fee_rate : num)
  : Outcome Strategy num :=
  run_rows (su_data su) (start su initial_bal lev fee_rate).

End WithArith.
End SimpleSMA.

(** ** envelope.py *)

Module Envelope.
Import Tools.
Section WithArith.
Context {A : Arith}.

(** [params]; an optional key is an [option]. *)
Record Params : Type := {
  mode : option string;
  average_type : string;
  average_period : nat;
  envelopes : list num;
  stop_loss_pct : num;
  price_jump_pct : option num;
  position_size_percentage : option num;
  position_size_fixed_amount : option num
}.

(** One row of [self.data]. Band and per-band signal columns are indexed by
    the loop variable [i] of the source (column suffix [i + 1]); a signal
    column is [None] while it does not exist. *)
Record Row : Type := {
  bar : Bar;
  average : num;
  band_high : nat -> num;
  band_low : nat -> num;
  close_long : option bool;
  close_short : option bool;
  open_long : nat -> option bool;
  open_short : nat -> option bool
}.

(** The loop of [populate_indicators] over [enumerate(envelopes)]. *)
Definition set_bands (envs : list num) (r : Row) : Row := {|
  bar := bar r; average := average r;
  band_high := fun i =>
    match nth_error envs i with
    | Some e => fdiv (average r) (fsub (lit 1) e)
    | None => band_high r i
    end;
  band_low := fun i =>
    match nth_error envs i with
    | Some e => fmul (average r) (fsub (lit 1) e)
    | None => band_low r i
    end;
  close_long := close_long r; close_short := close_short r;
  open_long := open_long r; open_short := open_short r |}.

Definition supported_average (t : string) : bool :=
  String.eqb "DCM" t || String.eqb "SMA" t || String.eqb "EMA" t || String.eqb "WMA" t.

(** [populate_indicators]: the moving average comes from [ta]; it is the
    [average] column of the input. *)
Definition populate_indicators (p : Params) (ohlcv : list (Z * Row))
  : result (list (Z * Row)) :=
  if supported_average (average_type p)
  then Ok (map (fun tr => (fst tr, set_bands (envelopes p) (snd tr))) ohlcv)
  else Raise ValueError.

(** [populate_long_signals], row by row. *)
Definition long_signals (n : nat) (r : Row) : Row := {|
  bar := bar r; average := average r;
  band_high := band_high r; band_low := band_low r;
  close_long := Some (geb (high (bar r)) (average r));
  close_short := close_short r;
  open_long := fun i =>
    if (i <? n)%nat then Some (leb (low (bar r)) (band_low r i)) else open_long r i;
  open_short := open_short r |}.

Definition populate_long_signals (p : Params) (data : list (Z * Row))
  : list (Z * Row) :=
  map (fun tr => (fst tr, long_signals (List.length (envelopes p)) (snd tr))) data.

(** [populate_short_signals], row by row. *)
Definition short_signals (n : nat) (r : Row) : Row := {|
  bar := bar r; average := average r;
  band_high := band_high r; band_low := band_low r;
  close_long := close_long r;
  close_short := Some (leb (low (bar r)) (average r));
  open_long := open_long r;
  open_short := fun i =>
    if (i <? n)%nat then Some (geb (high (bar r)) (band_high r i)) else open_short r i |}.

Definition populate_short_signals (p : Params) (data : list (Z * Row))
  : list (Z * Row) :=
  map (fun tr => (fst tr, short_signals (List.length (envelopes p)) (snd tr))) data.

Definition calculate_long_sl_price (p : Params) (avg_open_price : num) : num :=
  fmul avg_open_price (fsub (lit 1) (stop_loss_pct p)).

Definition calculate_short_sl_price (p : Params) (avg_open_price : num) : num :=
  fmul avg_open_price (fadd (lit 1) (stop_loss_pct p)).

(** The strategy object once [__init__] has returned. *)
Record Setup : Type := {
  su_params : Params;
  su_data : list (Z * Row);
  su_ignore_shorts : bool;
  su_ignore_longs : bool;
  su_good_to_trade : bool;
  su_position_was_closed : bool;
  su_n_bands_hit : nat
}.

Definition valid_mode (m : string) : bool :=
  String.eqb m "long" || String.eqb m "short" || String.eqb m "both".

Definition mode_or_default (m : option string) : string :=
  match m with Some v => v | None => "both" end.

Definition params_with_mode (p : Params) (m : string) : Params := {|
  mode := Some m;
  average_type := average_type p;
  average_period := average_period p;
  envelopes := envelopes p;
  stop_loss_pct := stop_loss_pct p;
  price_jump_pct := price_jump_pct p;
  position_size_percentage := position_size_percentage p;
  position_size_fixed_amount := position_size_fixed_amount p |}.

(** [set_trade_mode]; the three flags are those that [__init__] sets next. *)
Definition set_trade_mode (p : Params) (data : list (Z * Row)) : result Setup :=
  let m := mode_or_default (mode p) in
  if negb (valid_mode m) then Raise ValueError
  else
    let ignore_shorts := String.eqb m "long" in
    let ignore_longs := String.eqb m "short" in
    let data1 := if negb ignore_longs then populate_long_signals p data else data in
    let data2 := if negb ignore_shorts then populate_short_signals p data1 else data1 in
    Ok {| su_params := params_with_mode p m; su_data := data2;
          su_ignore_shorts := ignore_shorts; su_ignore_longs := ignore_longs;
          su_good_to_trade := true; su_position_was_closed := false;
          su_n_bands_hit := 0 |}.

(** [Strategy.__init__] *)
Definition init (p : Params) (ohlcv : list (Z * Row)) : result Setup :=
  rbind (populate_indicators p ohlcv) (fun data => set_trade_mode p data).

(** The attributes of the strategy during [run_backtest].
    [last_position_side] is [None] until the first entry assigns it. *)
Record Strategy : Type := {
  params : Params;
  ignore_shorts : bool;
  ignore_longs : bool;
  good_to_trade : bool;
  position_was_closed : bool;
  n_bands_hit : nat;
  last_position_side : option Side;
  initial_balance : num;
  balance : num;
  position : Position;
  equity_update_interval : Z;
  previous_equity_update_time : Z;
  trades_info : list Trade;
  equity_record : list EquityPoint
}.

Definition with_account (s : Strategy) (b : num) (p : Position) (ts : list Trade)
  : Strategy := {|
  params := params s; ignore_shorts := ignore_shorts s;
  ignore_longs := ignore_longs s; good_to_trade := good_to_trade s;
  position_was_closed := position_was_closed s; n_bands_hit := n_bands_hit s;
  last_position_side := last_position_side s;
  initial_balance := initial_balance s;
  balance := b; position := p;
  equity_update_interval := equity_update_interval s;
  previous_equity_update_time := previous_equity_update_time s;
  trades_info := ts; equity_record := equity_record s |}.

Definition with_flags (s : Strategy) (gate closed : bool) (hit : nat)
  (last : option Side) : Strategy := {|
  params := params s; ignore_shorts := ignore_shorts s;
  ignore_longs := ignore_longs s; good_to_trade := gate;
  position_was_closed := closed; n_bands_hit := hit;
  last_position_side := last;
  initial_balance := initial_balance s;
  balance := balance s; position := position s;
  equity_update_interval := equity_update_interval s;
  previous_equity_update_time := previous_equity_update_time s;
  trades_info := trades_info s; equity_record := equity_record s |}.

Definition with_equity (s : Strategy) (prev : Z) (rec : list EquityPoint)
  : Strategy := {|
  params := params s; ignore_shorts := ignore_shorts s;
  ignore_longs := ignore_longs s; good_to_trade := good_to_trade s;
  position_was_closed := position_was_closed s; n_bands_hit := n_bands_hit s;
  last_position_side := last_position_side s;
  initial_balance := initial_balance s;
  balance := balance s; position := position s;
  equity_update_interval := equity_update_interval s;
  previous_equity_update_time := prev;
  trades_info := trades_info s; equity_record := rec |}.

Definition price_of (o : option num) : result num := against o (fun x => x).

Definition ca_reason (sd : Side) : string :=
  match sd with Long => "CA long" | Short => "CA short" end.
Definition sl_reason (sd : Side) : string :=
  match sd with Long => "SL long" | Short => "SL short" end.
Definition exit_reason (sd : Side) : string :=
  match sd with Long => "Exit long" | Short => "Exit short" end.

(** [f"Open {side} {i + 1}"] *)
Definition open_reason_of (sd : Side) (i : nat) : string :=
  "Open " ++ side_name sd ++ " " ++ NilEmpty.string_of_uint (Nat.to_uint (i + 1)).

Definition close_flag (sd : Side) (r : Row) : option bool :=
  match sd with Long => close_long r | Short => close_short r end.

Definition liquidation_msg (sd : Side) (time : Z) (p : Position)
  : LiquidationMsg num :=
  {| liq_side := sd; liq_time := time; liq_price := liquidation_price p |}.

(** [close_trade]; the [tp_price] key is deleted from the entry. *)
Definition close_trade (time : Z) (price : num) (reason : string) (s : Strategy)
  : Outcome Strategy num :=
  try_in s (close (position s) time price reason) (fun p =>
  let open_balance := balance s in
  let bal := fadd (balance s) (fadd (initial_margin p) (net_pnl p)) in
  Continue
    (with_account s bal p
       (trades_info s ++ [with_balances (info p) open_balance bal true]))).

(** Lines 75-80 of [evaluate_orders]: the flag is cleared and a closed
    gate reopens when the close has recrossed the average. *)
Definition refresh_gate (row : Row) (s : Strategy) : Outcome Strategy num :=
  let s0 := with_flags s (good_to_trade s) false (n_bands_hit s)
              (last_position_side s) in
  if good_to_trade s0 then Continue s0
  else
    match last_position_side s0 with
    | None => Crashed AttributeError s0
    | Some Long =>
      if gtb (close_px (bar row)) (average row)
      then Continue (with_flags s0 true false (n_bands_hit s0) (last_position_side s0))
      else Continue s0
    | Some Short =>
      if ltb (close_px (bar row)) (average row)
      then Continue (with_flags s0 true false (n_bands_hit s0) (last_position_side s0))
      else Continue s0
    end.

(** The adverse-open test of the first branch. *)
Definition price_jumped (sd : Side) (row : Row) (s : Strategy) : bool :=
  match price_jump_pct (params s) with
  | None => false
  | Some pj =>
    match sd with
    | Long =>
      leb (bar_open (bar row)) (fmul (open_price (position s)) (fsub (lit 1) pj))
    | Short =>
      geb (bar_open (bar row)) (fmul (open_price (position s)) (fadd (lit 1) pj))
    end
  end.

(** What follows a guard or stop-loss close. *)
Definition shut_gate (s : Strategy) : Outcome Strategy num :=
  Continue (with_flags s false (position_was_closed s) 0 (last_position_side s)).

(** What follows a signal exit. *)
Definition mark_closed (s : Strategy) : Outcome Strategy num :=
  Continue (with_flags s (good_to_trade s) true 0 (last_position_side s)).

(** The branch of [evaluate_orders] for [self.position.side == sd]. *)
Definition manage_position (sd : Side) (time : Z) (row : Row) (s : Strategy)
  : Outcome Strategy num :=
  let p := position s in
  if price_jumped sd row s then
    and_then (close_trade time (bar_open (bar row)) (ca_reason sd) s) shut_gate
  else
  try_in s (check_for_sl p (bar row)) (fun sl =>
  if sl then
    try_in s (price_of (sl_price p)) (fun px =>
    and_then (close_trade time px (sl_reason sd) s) shut_gate)
  else
  try_in s (check_for_liquidation p (bar row)) (fun liq =>
  if liq then Liquidated (liquidation_msg sd time p) s
  else
  try_in s (column (close_flag sd row)) (fun ex =>
  if ex then and_then (close_trade time (average row) (exit_reason sd) s) mark_closed
  else Continue s))).

Definition side_is (sd : Side) (s : Strategy) : bool :=
  match side (position s) with
  | Some x => Side_eqb x sd
  | None => false
  end.

(** The [if / elif / else: continue] at the head of the loop body: the side
    that band [i] triggers, if any. *)
Definition band_trigger (i : nat) (row : Row) (s : Strategy) : result (option Side) :=
  rbind (if side_is Short s then Ok false else column (open_long row i)) (fun l =>
  if l then Ok (Some Long)
  else
  rbind (if side_is Long s then Ok false else column (open_short row i)) (fun sh =>
  if sh then Ok (Some Short) else Ok None)).

(** The two sizing branches; [Raise UnboundLocalError] is the use of
    [initial_margin] when neither assigned it. *)
Definition leg_margin (p : Params) (bal : num) : result num :=
  let n := nlit (List.length (envelopes p)) in
  match position_size_percentage p with
  | Some pct => Ok (fmul bal (round4 (fdiv (fdiv pct (lit 100)) n)))
  | None =>
    match position_size_fixed_amount p with
    | Some fixed => Ok (round4 (fdiv fixed n))
    | None => Raise UnboundLocalError
    end
  end.

Definition sl_price_calc (sd : Side) (p : Params) (px : num) : num :=
  match sd with
  | Long => calculate_long_sl_price p px
  | Short => calculate_short_sl_price p px
  end.

(** The rest of the loop body once band [i] has triggered side [sd];
    [bal] is the balance read before the loop. *)
Definition fill_band (i : nat) (sd : Side) (bal : num) (time : Z) (row : Row)
  (s : Strategy) : Outcome Strategy num :=
  let s1 := with_flags s (good_to_trade s) (position_was_closed s) (n_bands_hit s)
              (Some sd) in
  let price := match sd with Long => band_low row i | Short => band_high row i end in
  try_in s1 (leg_margin (params s1) bal) (fun margin =>
  let s2 := with_account s1 (fsub (balance s1) margin) (position s1) (trades_info s1) in
  let s3 := with_flags s2 (good_to_trade s2) (position_was_closed s2)
              (n_bands_hit s2 + 1) (last_position_side s2) in
  if (i =? 0)%nat then
    try_in s3
      (open (position s3) time sd margin price (open_reason_of sd i)
         (Some (sl_price_calc sd (params s3) price)) None)
      (fun p => Continue (with_account s3 (balance s3) p (trades_info s3)))
  else
    try_in s3
      (Tools.add (position s3) margin price (open_reason_of sd i))
      (fun p =>
         Continue
           (with_account s3 (balance s3)
              (set_sl_price p (Some (sl_price_calc sd (params s3) (open_price p))))
              (trades_info s3)))).

(** The loop body for band [i]. *)
Definition band_body (i : nat) (bal : num) (time : Z) (row : Row) (s : Strategy)
  : Outcome Strategy num :=
  try_in s (band_trigger i row s) (fun t =>
  match t with
  | Some sd => fill_band i sd bal time row s
  | None => Continue s
  end).

(** [for i in range(...)] over the indices [idxs]. *)
Fixpoint band_loop (idxs : list nat) (bal : num) (time : Z) (row : Row)
  (s : Strategy) : Outcome Strategy num :=
  match idxs with
  | [] => Continue s
  | i :: rest =>
    and_then (band_body i bal time row s) (band_loop rest bal time row)
  end.

(** [range(self.n_bands_hit, len(self.params["envelopes"]))] *)
Definition band_range (s : Strategy) : list nat :=
  seq (n_bands_hit s) (List.length (envelopes (params s)) - n_bands_hit s).

(** Lines 122-159: the entries. *)
Definition evaluate_entries (time : Z) (row : Row) (s : Strategy)
  : Outcome Strategy num :=
  if good_to_trade s && negb (position_was_closed s)
  then band_loop (band_range s) (balance s) time row s
  else Continue s.

(** Lines 82-120: the closes. *)
Definition evaluate_closes (time : Z) (row : Row) (s : Strategy)
  : Outcome Strategy num :=
  match side (position s) with
  | Some sd => manage_position sd time row s
  | None => Continue s
  end.

(** [evaluate_orders] *)
Definition evaluate_orders (time : Z) (row : Row) (s : Strategy)
  : Outcome Strategy num :=
  and_then (refresh_gate row s) (fun s1 =>
  and_then (evaluate_closes time row s1) (evaluate_entries time row)).

(** One iteration of the loop of [run_backtest]. *)
Definition loop_body (time : Z) (row : Row) (s : Strategy) : Outcome Strategy num :=
  and_then (evaluate_orders time row s) (fun s1 =>
  try_in s1
    (update_equity_record time (position s1) (balance s1) (close_px (bar row))
       (previous_equity_update_time s1) (equity_update_interval s1)
       (equity_record s1))
    (fun pr => Continue (with_equity s1 (fst pr) (snd pr)))).

Fixpoint run_rows (data : list (Z * Row)) (s : Strategy) : Outcome Strategy num :=
  match data with
  | [] => Continue s
  | (time, row) :: rest => and_then (loop_body time row s) (run_rows rest)
  end.

Definition epoch_1900 : Z := (-2208988800)%Z.
Definition six_hours : Z := 21600%Z.

(** The state that [run_backtest] builds before its loop, on a strategy
    that [__init__] has just returned. *)
Definition start (su : Setup) (initial_bal : num) (lev : Z) (ofr cfr : num)
  : Strategy := {|
  params := su_params su;
  ignore_shorts := su_ignore_shorts su;
  ignore_longs := su_ignore_longs su;
  good_to_trade := su_good_to_trade su;
  position_was_closed := su_position_was_closed su;
  n_bands_hit := su_n_bands_hit su;
  last_position_side := None;
  initial_balance := initial_bal;
  balance := initial_bal;
  position := Position_init lev (lit (1 # 1000)) (Some ofr) (Some cfr);
  equity_update_interval := six_hours;
  previous_equity_update_time := epoch_1900;
  trades_info := [];
  equity_record := [] |}.

(** [run_backtest], up to the end of its loop. *)
Definition run_backtest (su : Setup) (initial_bal : num) (lev : Z) (ofr cfr : num)
  : Outcome Strategy num :=
  run_rows (su_data su) (start su initial_bal lev ofr cfr).

End WithArith.
End Envelope.

(** ** The order of the close conditions, in the specification's words *)

Inductive CloseKind : Type :=
| AdverseOpenGuard | StopLoss | Liquidation | TakeProfit | SignalExit.

(** Section 4.2: guard, stop-loss, liquidation, take-profit, signal exit. *)
Definition priority_order : list CloseKind :=
  [AdverseOpenGuard; StopLoss; Liquidation; TakeProfit; SignalExit].

(** The first kind of [ks] whose condition holds; a condition is looked at
    only when all the earlier ones are false. *)
Fixpoint first_holding (cond : CloseKind -> result bool) (ks : list CloseKind)
  : result (option CloseKind) :=
  match ks with
  | [] => Ok None
  | k :: rest =>
    rbind (cond k) (fun b => if b then Ok (Some k) else first_holding cond rest)
  end.

Module SimpleSMAPriority.
Import Tools SimpleSMA.
Section WithArith.
Context {A : Arith}.

(** The condition of each kind; this strategy has no adverse-open guard. *)
Definition condition (sd : Side) (row : Row) (s : Strategy) (k : CloseKind)
  : result bool :=
  match k with
  | AdverseOpenGuard => Ok false
  | StopLoss => check_for_sl (position s) (bar row)
  | Liquidation => check_for_liquidation (position s) (bar row)
  | TakeProfit => check_for_tp (position s) (bar row)
  | SignalExit => column (close_flag sd row)
  end.

(** What each kind does when it is the one that takes effect. *)
Definition effect (sd : Side) (time : Z) (row : Row) (s : Strategy) (k : CloseKind)
  : Outcome Strategy num :=
  match k with
  | AdverseOpenGuard => Continue s
  | StopLoss =>
    try_in s (price_of (sl_price (position s))) (fun px =>
    close_trade time px (sl_reason sd) s)
  | Liquidation => Liquidated (liquidation_msg sd time (position s)) s
  | TakeProfit =>
    try_in s (price_of (tp_price (position s))) (fun px =>
    close_trade time px (tp_reason sd) s)
  | SignalExit => close_trade time (close_px (bar row)) (exit_reason sd) s
  end.

Definition close_by_priority (sd : Side) (time : Z) (row : Row) (s : Strategy)
  : Outcome Strategy num :=
  try_in s (first_holding (condition sd row s) priority_order) (fun k =>
  match k with
  | Some kind => effect sd time row s kind
  | None => Continue s
  end).

End WithArith.
End SimpleSMAPriority.

Module EnvelopePriority.
Import Tools Envelope.
Section WithArith.
Context {A : Arith}.

(** The condition of each kind; this strategy has no fixed target. *)
Definition condition (sd : Side) (row : Row) (s : Strategy) (k : CloseKind)
  : result bool :=
  match k with
  | AdverseOpenGuard => Ok (price_jumped sd row s)
  | StopLoss => check_for_sl (position s) (bar row)
  | Liquidation => check_for_liquidation (position s) (bar row)
  | TakeProfit => Ok false
  | SignalExit => column (close_flag sd row)
  end.

Definition effect (sd : Side) (time : Z) (row : Row) (s : Strategy) (k : CloseKind)
  : Outcome Strategy num :=
  match k with
  | AdverseOpenGuard =>
    and_then (close_trade time (bar_open (bar row)) (ca_reason sd) s) shut_gate
  | StopLoss =>
    try_in s (price_of (sl_price (position s))) (fun px =>
    and_then (close_trade time px (sl_reason sd) s) shut_gate)
  | Liquidation => Liquidated (liquidation_msg sd time (position s)) s
  | TakeProfit => Continue s
  | SignalExit =>
    and_then (close_trade time (average row) (exit_reason sd) s) mark_closed
  end.

Definition close_by_priority (sd : Side) (time : Z) (row : Row) (s : Strategy)
  : Outcome Strategy num :=
  try_in s (first_holding (condition sd row s) priority_order) (fun k =>
  match k with
  | Some kind => effect sd time row s kind
  | None => Continue s
  end).

End WithArith.
End EnvelopePriority.

(** ** Reachable states and the band log of the envelope engine *)

Module EnvelopeRun.
Import Tools Envelope.
Section WithArith.
Context {A : Arith}.

(** The states of a run: [run_backtest] on a fresh strategy, then any
    number of loop iterations, on any rows. *)
Inductive reachable : Strategy -> Prop :=
| reach_start (p : Params) (ohlcv : list (Z * Row)) (su : Setup)
    (ib : num) (lev : Z) (ofr cfr : num) :
    init p ohlcv = Ok su -> reachable (start su ib lev ofr cfr)
| reach_step (s : Strategy) (time : Z) (row : Row) (s' : Strategy) :
    reachable s -> loop_body time row s = Continue s' -> reachable s'.

(** What every reachable state satisfies. *)
Definition coherent (s : Strategy) : Prop :=
  (forall sd, side (position s) = Some sd ->
     behavior (position s) = Some sd /\ good_to_trade s = true /\
     last_position_side s = Some sd) /\
  (good_to_trade s = false -> last_position_side s <> None).


(** The account, the ledger and the counters are what the gate update
    leaves alone. *)
Definition same_account (s s' : Strategy) : Prop :=
  params s' = params s /\ balance s' = balance s /\ position s' = position s /\
  trades_info s' = trades_info s /\ equity_record s' = equity_record s /\
  n_bands_hit s' = n_bands_hit s /\ last_position_side s' = last_position_side s /\
  previous_equity_update_time s' = previous_equity_update_time s /\
  equity_update_interval s' = equity_update_interval s.

(** The state right after [close_trade] has closed the position into [p]. *)
Definition closed_account (s : Strategy) (p : Position) : Strategy :=
  let bal := fadd (balance s) (fadd (initial_margin p) (net_pnl p)) in
  with_account s bal p
    (trades_info s ++ [with_balances (info p) (balance s) bal true])%list.


(** The state in which the entries of a bar run once the gate has
    reopened. *)
Definition reopened (s : Strategy) : Strategy :=
  with_flags s true false (n_bands_hit s) (last_position_side s).


(** One look at a band by the entry loop: its index, the watermark
    [n_bands_hit] at that moment, and whether the band was filled. *)
Record BandEvent : Type := {
  ev_band : nat;
  ev_watermark : nat;
  ev_filled : bool
}.

(** The log of [band_loop]: it follows the loop and records each look. *)
Fixpoint band_events (idxs : list nat) (bal : num) (time : Z) (row : Row)
  (s : Strategy) : list BandEvent :=
  match idxs with
  | [] => []
  | i :: rest =>
    let look f := {| ev_band := i; ev_watermark := n_bands_hit s; ev_filled := f |} in
    match band_trigger i row s with
    | Raise _ => [look false]
    | Ok None => look false :: band_events rest bal time row s
    | Ok (Some sd) =>
      match fill_band i sd bal time row s with
      | Continue s' => look true :: band_events rest bal time row s'
      | _ => [look false]
      end
    end
  end.

(** The log of one call of [evaluate_orders]. *)
Definition bar_band_events (time : Z) (row : Row) (s : Strategy) : list BandEvent :=
  match and_then (refresh_gate row s) (evaluate_closes time row) with
  | Continue s2 =>
    if good_to_trade s2 && negb (position_was_closed s2)
    then band_events (band_range s2) (balance s2) time row s2
    else []
  | _ => []
  end.

Definition fills (log : list BandEvent) : nat :=
  List.length (filter ev_filled log).

End WithArith.
End EnvelopeRun.

(** ** Ledger growth *)

Section Ledger.
Import Tools.
Context {A : Arith}.

(** The ledger [after] is [before], or [before] and one more entry. *)
Definition grew_by_at_most_one (before after : list Trade) : Prop :=
  after = before \/ exists e, after = (before ++ [e])%list.


End Ledger.

(** ** The conservation law on the exact rationals *)

Section Conservation.
Import Tools.
Local Open Scope Qc_scope.


End Conservation.

(** ** Concrete runs on the exact rationals *)

Module Samples.
Import Tools.

Definition qz (z : Z) : Qc := Q2Qc (inject_Z z).

Definition mk_bar (o h l c : Z) : @Bar QcArith :=
  {| bar_open := qz o; high := qz h; low := qz l; close_px := qz c |}.

(** *** simple_sma.py: 10 percent of the balance per trade *)

Definition sma_params : @SimpleSMA.Params QcArith := {|
  SimpleSMA.mode := None;
  SimpleSMA.fast_ma_period := 2;
  SimpleSMA.slow_ma_period := 3;
  SimpleSMA.trend_ma_period := 5;
  SimpleSMA.position_size_percentage := Some (qz 10);
  SimpleSMA.position_size_exposure := None;
  SimpleSMA.exposure := None;
  SimpleSMA.position_size_fixed_amount := None |}.

(** An input row: prices and the three moving averages, no signal column. *)
Definition sma_row (o h l c fast slow tr : Z) : @SimpleSMA.Row QcArith := {|
  SimpleSMA.bar := mk_bar o h l c;
  SimpleSMA.fastMA := qz fast; SimpleSMA.slowMA := qz slow; SimpleSMA.trend := qz tr;
  SimpleSMA.open_long := None; SimpleSMA.close_long := None;
  SimpleSMA.open_short := None; SimpleSMA.close_short := None |}.

(** The fast average crosses above the slow one on the second row and
    below it on the third; the third closes at the entry price. *)
Definition sma_ohlcv : list (Z * @SimpleSMA.Row QcArith) :=
  [ (0%Z, sma_row 100 101 99 100 10 10 90);
    (86400%Z, sma_row 100 101 99 100 11 10 90);
    (172800%Z, sma_row 100 101 99 100 9 10 90) ].

Definition sma_setup : @SimpleSMA.Setup QcArith :=
  match SimpleSMA.init sma_params sma_ohlcv with
  | Ok su => su
  | Raise _ =>
    {| SimpleSMA.su_params := sma_params; SimpleSMA.su_data := [];
       SimpleSMA.su_ignore_shorts := false; SimpleSMA.su_ignore_longs := false |}
  end.

(** Balance 1000, leverage 1, no fee. *)
Definition sma_start : @SimpleSMA.Strategy QcArith :=
  SimpleSMA.start sma_setup (qz 1000) 1 (qz 0).

(** The state after the first row (flat) and after the second (long). *)
Definition sma_flat : @SimpleSMA.Strategy QcArith :=
  final_state (SimpleSMA.run_rows (firstn 1 (SimpleSMA.su_data sma_setup)) sma_start).
Definition sma_long : @SimpleSMA.Strategy QcArith :=
  final_state (SimpleSMA.run_rows (firstn 2 (SimpleSMA.su_data sma_setup)) sma_start).

Definition sma_third_row : @SimpleSMA.Row QcArith :=
  snd (nth 2 (SimpleSMA.su_data sma_setup) (0%Z, sma_row 0 0 0 0 0 0 0)).

(** *** envelope.py: two bands, 5 and 10 percent below and above *)

Definition env_params : @Envelope.Params QcArith := {|
  Envelope.mode := None;
  Envelope.average_type := "SMA";
  Envelope.average_period := 5;
  Envelope.envelopes := [Q2Qc (5 # 100); Q2Qc (10 # 100)];
  Envelope.stop_loss_pct := Q2Qc (20 # 100);
  Envelope.price_jump_pct := Some (Q2Qc (30 # 100));
  Envelope.position_size_percentage := Some (qz 100);
  Envelope.position_size_fixed_amount := None |}.

(** An input row: prices and the average, no band and no signal column. *)
Definition env_row (o h l c avg : Z) : @Envelope.Row QcArith := {|
  Envelope.bar := mk_bar o h l c;
  Envelope.average := qz avg;
  Envelope.band_high := fun _ => qz 0;
  Envelope.band_low := fun _ => qz 0;
  Envelope.close_long := None; Envelope.close_short := None;
  Envelope.open_long := fun _ => None; Envelope.open_short := fun _ => None |}.

(** The first row fills the first long band (low 94 under 95). *)
Definition env_ohlcv : list (Z * @Envelope.Row QcArith) :=
  [ (0%Z, env_row 99 99 94 98 100) ].

Definition env_setup_of (p : @Envelope.Params QcArith)
  (ohlcv : list (Z * @Envelope.Row QcArith)) : @Envelope.Setup QcArith :=
  match Envelope.init p ohlcv with
  | Ok su => su
  | Raise _ =>
    {| Envelope.su_params := p; Envelope.su_data := [];
       Envelope.su_ignore_shorts := false; Envelope.su_ignore_longs := false;
       Envelope.su_good_to_trade := true; Envelope.su_position_was_closed := false;
       Envelope.su_n_bands_hit := 0 |}
  end.

Definition env_setup : @Envelope.Setup QcArith := env_setup_of env_params env_ohlcv.

(** Balance 1000, leverage 1, no fee. *)
Definition env_start : @Envelope.Strategy QcArith :=
  Envelope.start env_setup (qz 1000) 1 (qz 0) (qz 0).

(** The state after the first row: long at 95 with one band filled. *)
Definition env_long : @Envelope.Strategy QcArith :=
  final_state (Envelope.run_rows (Envelope.su_data env_setup) env_start).

(** A later row as set-up would have prepared it. *)
Definition env_prepared (o h l c avg : Z) : @Envelope.Row QcArith :=
  Envelope.short_signals 2
    (Envelope.long_signals 2
       (Envelope.set_bands (Envelope.envelopes env_params) (env_row o h l c avg))).

End Samples.

(** ** More concrete envelope states *)

Module EnvelopeSamples.
Import Tools Samples.

(** The first row of the prepared data. *)
Definition env_first_row : @Envelope.Row QcArith :=
  snd (nth 0 (Envelope.su_data env_setup) (0%Z, env_row 0 0 0 0 0)).

(** The same run with leverage 10: long at 95, liquidation price 85.5,
    stop at 76. *)
Definition env_start10 : @Envelope.Strategy QcArith :=
  Envelope.start env_setup (qz 1000) 10 (qz 0) (qz 0).
Definition env_long10 : @Envelope.Strategy QcArith :=
  final_state (Envelope.loop_body 0 env_first_row env_start10).

(** Opens at 60, under 70 percent of the entry price. *)
Definition jump_row : @Envelope.Row QcArith := env_prepared 60 61 59 60 100.
(** Low of 70, under the stop at 76. *)
Definition stop_row : @Envelope.Row QcArith := env_prepared 90 91 70 72 100.
(** Low of 80: above the stop, under the liquidation price. *)
Definition liquidation_row : @Envelope.Row QcArith := env_prepared 90 96 80 85 100.
(** Closes at 71, under the average. *)
Definition quiet_row : @Envelope.Row QcArith := env_prepared 70 72 69 71 100.
(** Closes at 101, above the average; its low of 94 is under the first band. *)
Definition recross_row : @Envelope.Row QcArith := env_prepared 99 102 94 101 100.
(** High of 101 over the average (exit signal), low of 94 under the first
    long band (entry signal). *)
Definition exit_and_entry_row : @Envelope.Row QcArith := env_prepared 99 101 94 98 100.

Definition after_jump : @Envelope.Strategy QcArith :=
  final_state (Envelope.loop_body 21600 jump_row env_long).
Definition after_stop : @Envelope.Strategy QcArith :=
  final_state (Envelope.loop_body 21600 stop_row env_long).


(** The state after the bar that carries both an exit and an entry signal. *)
Definition after_exit : @Envelope.Strategy QcArith :=
  final_state (Envelope.evaluate_orders 21600 exit_and_entry_row env_long).
(** The fresh strategy once the gate update of a bar has run. *)
Definition env_start_refreshed : @Envelope.Strategy QcArith :=
  final_state (Envelope.refresh_gate exit_and_entry_row env_start).

End EnvelopeSamples.

(** ** More concrete simple_sma states *)

Module SimpleSMASamples.
Import Tools Samples.

(** The same run with leverage 10: long at 100, liquidation price 90,
    stop at 85. *)
Definition sma_start10 : @SimpleSMA.Strategy QcArith :=
  SimpleSMA.start sma_setup (qz 1000) 10 (qz 0).
Definition sma_two_rows : list (Z * @SimpleSMA.Row QcArith) :=
  firstn 2 (SimpleSMA.su_data sma_setup).
Definition sma_long10 : @SimpleSMA.Strategy QcArith :=
  final_state (SimpleSMA.run_rows sma_two_rows sma_start10).

(** Low of 88: above the stop, under the liquidation price. *)
Definition sma_liquidation_row : @SimpleSMA.Row QcArith := {|
  SimpleSMA.bar := mk_bar 95 96 88 92;
  SimpleSMA.fastMA := qz 11; SimpleSMA.slowMA := qz 10; SimpleSMA.trend := qz 90;
  SimpleSMA.open_long := Some false; SimpleSMA.close_long := Some false;
  SimpleSMA.open_short := Some false; SimpleSMA.close_short := Some false |}.


(** The state after the third row, which closes the long. *)
Definition sma_after_exit : @SimpleSMA.Strategy QcArith :=
  final_state (SimpleSMA.evaluate_orders 172800 sma_third_row sma_long).

End SimpleSMASamples.

(** ** Configurations for set-up *)

Definition is_ok {T : Type} (r : result T) : bool :=
  match r with Ok _ => true | Raise _ => false end.

Module ConfigSamples.
Import Tools Samples.




Definition env_with_sizing (m : option string) (pct fixed : option Qc)
  : @Envelope.Params QcArith := {|
  Envelope.mode := m;
  Envelope.average_type := "SMA";
  Envelope.average_period := 5;
  Envelope.envelopes := [Q2Qc (5 # 100); Q2Qc (10 # 100)];
  Envelope.stop_loss_pct := Q2Qc (20 # 100);
  Envelope.price_jump_pct := Some (Q2Qc (30 # 100));
  Envelope.position_size_percentage := pct;
  Envelope.position_size_fixed_amount := fixed |}.

Definition env_fixed_only : @Envelope.Params QcArith :=
  env_with_sizing None None (Some (qz 50)).


(** *** Trade mode "long" in the envelope engine *)

Definition env_long_only : @Envelope.Params QcArith :=
  env_with_sizing (Some "long") (Some (qz 100)) None.

(** A row whose low of 99 stays above the first long band and whose high of
    106 is above the first short band. *)
Definition env_plain_row : @Envelope.Row QcArith := env_row 100 106 99 100 100.

(** The same row in an input that already has the per-band short signal
    columns, all true. *)
Definition env_row_with_short_columns : @Envelope.Row QcArith := {|
  Envelope.bar := Envelope.bar env_plain_row;
  Envelope.average := Envelope.average env_plain_row;
  Envelope.band_high := Envelope.band_high env_plain_row;
  Envelope.band_low := Envelope.band_low env_plain_row;
  Envelope.close_long := None; Envelope.close_short := None;
  Envelope.open_long := fun _ => None;
  Envelope.open_short := fun _ => Some true |}.

Definition run_long_only (ohlcv : list (Z * @Envelope.Row QcArith))
  : Outcome (@Envelope.Strategy QcArith) Qc :=
  Envelope.run_backtest (env_setup_of env_long_only ohlcv) (qz 1000) 1 (qz 0) (qz 0).

End ConfigSamples.

(** * Properties *)

(** ** Liquidation price (tools.py) *)

Section LiquidationPrice.
Import Tools.
Local Open Scope Qc_scope.




End LiquidationPrice.

(** ** The close phase of a bar *)

Section ClosePriority.
Import Tools.
Context {A : Arith}.
Local Open Scope list_scope.

Lemma sma_close_trade_ledger time price reason (s : SimpleSMA.Strategy) :
  grew_by_at_most_one (SimpleSMA.trades_info s)
    (SimpleSMA.trades_info (final_state (SimpleSMA.close_trade time price reason s))).
Proof.
  unfold SimpleSMA.close_trade.
  destruct (close (SimpleSMA.position s) time price reason); simpl.
  - right. eexists. reflexivity.
  - left. reflexivity.
Qed.

Lemma env_close_trade_ledger time price reason (s : Envelope.Strategy)
  (k : Envelope.Strategy -> Outcome Envelope.Strategy num) :
  (forall x, exists y, k x = Continue y /\
     Envelope.trades_info y = Envelope.trades_info x) ->
  grew_by_at_most_one (Envelope.trades_info s)
    (Envelope.trades_info
       (final_state (and_then (Envelope.close_trade time price reason s) k))).
Proof.
  intro Hk. unfold Envelope.close_trade.
  destruct (close (Envelope.position s) time price reason); simpl.
  - match goal with |- context [k ?x] => destruct (Hk x) as [y [Hy Ht]] end.
    rewrite Hy. simpl. rewrite Ht. simpl. right. eexists. reflexivity.
  - left. reflexivity.
Qed.

Lemma shut_gate_keeps_ledger (x : Envelope.Strategy) :
  exists y, Envelope.shut_gate x = Continue y /\
    Envelope.trades_info y = Envelope.trades_info x.
Proof. eexists. split; reflexivity. Qed.

Lemma mark_closed_keeps_ledger (x : Envelope.Strategy) :
  exists y, Envelope.mark_closed x = Continue y /\
    Envelope.trades_info y = Envelope.trades_info x.
Proof. eexists. split; reflexivity. Qed.

Lemma sma_manage_is_priority sd time row (s : SimpleSMA.Strategy) :
  SimpleSMA.manage_position sd time row s =
  SimpleSMAPriority.close_by_priority sd time row s.
Proof.
  unfold SimpleSMA.manage_position, SimpleSMAPriority.close_by_priority,
    priority_order; simpl.
  destruct (check_for_sl (SimpleSMA.position s) (SimpleSMA.bar row)) as [[|]|];
    simpl; try reflexivity.
  destruct (check_for_liquidation (SimpleSMA.position s) (SimpleSMA.bar row))
    as [[|]|]; simpl; try reflexivity.
  destruct (check_for_tp (SimpleSMA.position s) (SimpleSMA.bar row)) as [[|]|];
    simpl; try reflexivity.
  destruct (column (SimpleSMA.close_flag sd row)) as [[|]|]; reflexivity.
Qed.

Lemma env_manage_is_priority sd time row (s : Envelope.Strategy) :
  Envelope.manage_position sd time row s =
  EnvelopePriority.close_by_priority sd time row s.
Proof.
  unfold Envelope.manage_position, EnvelopePriority.close_by_priority,
    priority_order; simpl.
  destruct (Envelope.price_jumped sd row s); simpl; try reflexivity.
  destruct (check_for_sl (Envelope.position s) (Envelope.bar row)) as [[|]|];
    simpl; try reflexivity.
  destruct (check_for_liquidation (Envelope.position s) (Envelope.bar row))
    as [[|]|]; simpl; try reflexivity.
  destruct (column (Envelope.close_flag sd row)) as [[|]|]; reflexivity.
Qed.

Lemma sma_manage_ledger sd time row (s : SimpleSMA.Strategy) :
  grew_by_at_most_one (SimpleSMA.trades_info s)
    (SimpleSMA.trades_info (final_state (SimpleSMA.manage_position sd time row s))).
Proof.
  unfold SimpleSMA.manage_position.
  repeat match goal with
  | |- context [try_in _ ?r _] => destruct r as [[|]|]; simpl
  | |- context [try_in _ ?r _] => destruct r; simpl
  end;
  try apply sma_close_trade_ledger; left; reflexivity.
Qed.

Lemma env_manage_ledger sd time row (s : Envelope.Strategy) :
  grew_by_at_most_one (Envelope.trades_info s)
    (Envelope.trades_info (final_state (Envelope.manage_position sd time row s))).
Proof.
  unfold Envelope.manage_position.
  destruct (Envelope.price_jumped sd row s).
  { apply env_close_trade_ledger, shut_gate_keeps_ledger. }
  repeat match goal with
  | |- context [try_in _ ?r _] => destruct r as [[|]|]; simpl
  | |- context [try_in _ ?r _] => destruct r; simpl
  end;
  try (apply env_close_trade_ledger;
       first [apply shut_gate_keeps_ledger | apply mark_closed_keeps_ledger]);
  left; reflexivity.
Qed.

(** C3. While a position is open, the close branch of a bar is the one
    that the order guard, stop-loss, liquidation, take-profit, signal exit
    selects: the first condition that holds takes effect and none after it
    is looked at; the ledger gains at most one entry. *)
Theorem C3_closes_follow_priority_order
  (sd1 sd2 : Side) (time : Z) (row1 : SimpleSMA.Row) (s1 : SimpleSMA.Strategy)
  (row2 : Envelope.Row) (s2 : Envelope.Strategy) :
  side (SimpleSMA.position s1) = Some sd1 ->
  side (Envelope.position s2) = Some sd2 ->
  (SimpleSMA.evaluate_orders time row1 s1 =
     SimpleSMAPriority.close_by_priority sd1 time row1 s1 /\
   grew_by_at_most_one (SimpleSMA.trades_info s1)
     (SimpleSMA.trades_info (final_state (SimpleSMA.evaluate_orders time row1 s1)))) /\
  (Envelope.evaluate_closes time row2 s2 =
     EnvelopePriority.close_by_priority sd2 time row2 s2 /\
   grew_by_at_most_one (Envelope.trades_info s2)
     (Envelope.trades_info (final_state (Envelope.evaluate_closes time row2 s2)))).
Proof.
  intros H1 H2.
  unfold SimpleSMA.evaluate_orders, Envelope.evaluate_closes.
  rewrite H1, H2. repeat split.
  - apply sma_manage_is_priority.
  - apply sma_manage_ledger.
  - apply env_manage_is_priority.
  - apply env_manage_ledger.
Qed.

End ClosePriority.

Section ClosePriorityWitness.
Import Tools Samples.

Lemma C3_closes_follow_priority_order_witness :
  side (SimpleSMA.position sma_long) = Some Long /\
  side (Envelope.position env_long) = Some Long /\
  SimpleSMA.evaluate_orders 172800 sma_third_row sma_long =
    SimpleSMAPriority.close_by_priority Long 172800 sma_third_row sma_long /\
  Envelope.evaluate_closes 172800 (env_prepared 95 101 94 100 100) env_long =
    EnvelopePriority.close_by_priority Long 172800
      (env_prepared 95 101 94 100 100) env_long.
Proof.
  assert (H1 : side (SimpleSMA.position sma_long) = Some Long)
    by (vm_compute; reflexivity).
  assert (H2 : side (Envelope.position env_long) = Some Long)
    by (vm_compute; reflexivity).
  destruct (C3_closes_follow_priority_order 172800 sma_third_row sma_long
              (env_prepared 95 101 94 100 100) env_long H1 H2)
    as [[Ha _] [Hb _]].
  exact (conj H1 (conj H2 (conj Ha Hb))).
Defined.

End ClosePriorityWitness.

(** ** The envelope engine: what each phase of a bar preserves *)

Section EnvelopeFacts.
Import Tools Envelope EnvelopeRun.
Context {A : Arith}.
Local Open Scope nat_scope.
Local Open Scope list_scope.

Ltac break_try :=
  repeat match goal with
  | |- context [try_in _ ?r _] => destruct r eqn:?; simpl
  | |- context [if ?b then _ else _] => destruct b eqn:?; simpl
  end.

Lemma refresh_gate_open row (s : Strategy) :
  good_to_trade s = true ->
  refresh_gate row s =
    Continue (with_flags s true false (n_bands_hit s) (last_position_side s)).
Proof. intro H. unfold refresh_gate. simpl. rewrite H. reflexivity. Qed.


Lemma refresh_gate_account row (s s' : Strategy) :
  refresh_gate row s = Continue s' ->
  same_account s s' /\ position_was_closed s' = false /\
  (good_to_trade s = true -> good_to_trade s' = true).
Proof.
  unfold refresh_gate, same_account. simpl.
  destruct (good_to_trade s) eqn:G.
  - intro H; inversion H; subst; simpl. repeat split; auto.
  - destruct (last_position_side s) as [[|]|] eqn:L; try discriminate;
      [destruct (gtb (close_px (bar row)) (average row))
      |destruct (ltb (close_px (bar row)) (average row))];
      intro H; inversion H; subst; simpl; repeat split; auto; discriminate.
Qed.

(** A close credits the balance and appends the entry. *)
Lemma close_trade_open_position time price reason (s : Strategy) sd :
  behavior (position s) = Some sd ->
  exists p,
    close (position s) time price reason = Ok p /\
    side p = None /\ behavior p = Some sd /\
    close_price p = price /\ close_reason p = reason /\
    initial_margin p = initial_margin (position s) /\
    close_trade time price reason s = Continue (closed_account s p).
Proof.
  intro B. unfold close_trade, close, calculate_pnl, bound_behavior.
  rewrite B. simpl. eexists.
  split; [reflexivity|]. simpl. repeat split; auto.
Qed.

Lemma fill_band_effect i sd bal time row (s s' : Strategy) :
  fill_band i sd bal time row s = Continue s' ->
  n_bands_hit s' = n_bands_hit s + 1 /\
  trades_info s' = trades_info s /\
  good_to_trade s' = good_to_trade s /\
  position_was_closed s' = position_was_closed s /\
  params s' = params s /\
  last_position_side s' = Some sd /\
  ((i = 0 /\ side (position s') = Some sd /\ behavior (position s') = Some sd) \/
   (i <> 0 /\ side (position s') = side (position s) /\
    behavior (position s') = behavior (position s))).
Proof.
  unfold fill_band.
  destruct (leg_margin _ _) as [margin|]; simpl; [|discriminate].
  destruct (i =? 0) eqn:I.
  - apply Nat.eqb_eq in I.
    unfold open, calculate_liquidation_price, bound_behavior; simpl.
    destruct (behavior_liquidation_price _ _ _); simpl; [|discriminate].
    intro H; inversion H; subst; simpl.
    repeat (split; [reflexivity|]). left. repeat split; auto.
  - apply Nat.eqb_neq in I.
    unfold Tools.add. simpl.
    destruct (behavior (position s)) eqn:B; simpl; [|discriminate].
    unfold calculate_liquidation_price, bound_behavior; simpl.
    destruct (behavior_liquidation_price _ _ _); simpl; [|discriminate].
    intro H; inversion H; subst; simpl.
    repeat (split; [reflexivity|]). right. repeat split; auto.
Qed.

Lemma band_trigger_side i row (s : Strategy) sd x :
  band_trigger i row s = Ok (Some sd) -> side (position s) = Some x -> sd = x.
Proof.
  unfold band_trigger, side_is. intros H S. rewrite S in H.
  destruct x; simpl in H.
  - destruct (column (open_long row i)) as [[|]|]; simpl in H; congruence.
  - destruct (column (open_short row i)) as [[|]|]; simpl in H; congruence.
Qed.


Lemma band_body_coherent i bal time row (s s' : Strategy) :
  coherent s -> good_to_trade s = true ->
  band_body i bal time row s = Continue s' ->
  coherent s' /\ good_to_trade s' = true /\ trades_info s' = trades_info s.
Proof.
  intros [C1 C2] G. unfold band_body.
  destruct (band_trigger i row s) as [[sd|]|] eqn:T; simpl; try discriminate.
  - intro F. destruct (fill_band_effect _ _ _ _ _ _ F)
      as [_ [Ht [Hg [_ [_ [Hl Hs]]]]]].
    split; [split|split; [congruence|exact Ht]].
    + intros x Hx. destruct Hs as [[_ [Hs Hb]]|[_ [Hs Hb]]].
      * rewrite Hs in Hx. inversion Hx; subst.
        split; [exact Hb|split; [congruence|exact Hl]].
      * rewrite Hs in Hx. destruct (C1 x Hx) as [B _].
        pose proof (band_trigger_side _ _ _ T Hx). subst.
        rewrite Hb. split; [exact B|split; [congruence|exact Hl]].
    + rewrite Hl. discriminate.
  - intro H; inversion H; subst. split; [split; assumption|split; auto].
Qed.

Lemma band_loop_coherent idxs bal time row (s s' : Strategy) :
  coherent s -> good_to_trade s = true ->
  band_loop idxs bal time row s = Continue s' ->
  coherent s' /\ good_to_trade s' = true /\ trades_info s' = trades_info s.
Proof.
  revert s. induction idxs as [|i rest IH]; simpl; intros s C G H.
  - inversion H; subst. auto.
  - destruct (band_body i bal time row s) as [s1| |] eqn:B; simpl in H;
      try discriminate.
    destruct (band_body_coherent _ _ _ _ C G B) as [C1 [G1 T1]].
    destruct (IH _ C1 G1 H) as [C' [G' T']].
    split; [exact C'|split; [exact G'|congruence]].
Qed.

Lemma entries_coherent time row (s s' : Strategy) :
  coherent s -> evaluate_entries time row s = Continue s' -> coherent s'.
Proof.
  intros C. unfold evaluate_entries.
  destruct (good_to_trade s) eqn:G; simpl.
  - destruct (position_was_closed s); simpl.
    + intro H; inversion H; subst; auto.
    + intro H. eapply band_loop_coherent; eauto.
  - intro H; inversion H; subst; auto.
Qed.

Lemma shut_after_close_coherent (s : Strategy) p sd :
  side p = None -> last_position_side s = Some sd ->
  coherent (with_flags (closed_account s p) false (position_was_closed s) 0
              (last_position_side s)).
Proof.
  intros Hs Hl. split; simpl.
  - intros x Hx. rewrite Hs in Hx. discriminate.
  - intros _. rewrite Hl. discriminate.
Qed.

Lemma marked_after_close_coherent (s : Strategy) p :
  side p = None -> coherent s ->
  coherent (with_flags (closed_account s p) (good_to_trade s) true 0
              (last_position_side s)).
Proof.
  intros Hs [_ C2]. split; simpl.
  - intros x Hx. rewrite Hs in Hx. discriminate.
  - exact C2.
Qed.

Lemma closes_coherent time row (s s' : Strategy) :
  coherent s -> evaluate_closes time row s = Continue s' -> coherent s'.
Proof.
  intros C. unfold evaluate_closes.
  destruct (side (position s)) as [sd|] eqn:S;
    [|intro H; inversion H; subst; exact C].
  destruct (proj1 C sd S) as [B [G L]].
  unfold manage_position.
  destruct (price_jumped sd row s).
  { destruct (close_trade_open_position time (bar_open (bar row)) (ca_reason sd) s B)
      as [p [_ [Hs [_ [_ [_ [_ Hc]]]]]]].
    rewrite Hc. simpl. unfold shut_gate. intro H; inversion H; subst.
    simpl. eapply shut_after_close_coherent; eauto. }
  destruct (check_for_sl (position s) (bar row)) as [[|]|]; simpl;
    try discriminate.
  { destruct (price_of (sl_price (position s))) as [px|]; simpl; try discriminate.
    destruct (close_trade_open_position time px (sl_reason sd) s B)
      as [p [_ [Hs [_ [_ [_ [_ Hc]]]]]]].
    rewrite Hc. simpl. unfold shut_gate. intro H; inversion H; subst.
    simpl. eapply shut_after_close_coherent; eauto. }
  destruct (check_for_liquidation (position s) (bar row)) as [[|]|]; simpl;
    try discriminate.
  destruct (column (close_flag sd row)) as [[|]|]; simpl; try discriminate.
  - destruct (close_trade_open_position time (average row) (exit_reason sd) s B)
      as [p [_ [Hs [_ [_ [_ [_ Hc]]]]]]].
    rewrite Hc. simpl. unfold mark_closed. intro H; inversion H; subst.
    simpl. apply marked_after_close_coherent; auto.
  - intro H; inversion H; subst; exact C.
Qed.

Lemma refresh_gate_coherent row (s s' : Strategy) :
  coherent s -> refresh_gate row s = Continue s' -> coherent s'.
Proof.
  intros [C1 C2] H.
  destruct (refresh_gate_account _ _ H) as [Ha [_ Hg]].
  destruct Ha as [_ [_ [Hp [_ [_ [_ [Hl _]]]]]]].
  split.
  - intros sd Hs. rewrite Hp in Hs. destruct (C1 sd Hs) as [B [G L]].
    rewrite Hp, Hl. auto.
  - intros G'. rewrite Hl.
    destruct (good_to_trade s) eqn:G; [rewrite Hg in G'; auto; discriminate|].
    auto.
Qed.

Lemma evaluate_orders_coherent time row (s s' : Strategy) :
  coherent s -> evaluate_orders time row s = Continue s' -> coherent s'.
Proof.
  intros C. unfold evaluate_orders.
  destruct (refresh_gate row s) as [s1| |] eqn:R; simpl; try discriminate.
  destruct (evaluate_closes time row s1) as [s2| |] eqn:E; simpl; try discriminate.
  intro H. eapply entries_coherent; [|exact H].
  eapply closes_coherent; [|exact E].
  eapply refresh_gate_coherent; eauto.
Qed.

Lemma loop_body_coherent time row (s s' : Strategy) :
  coherent s -> loop_body time row s = Continue s' -> coherent s'.
Proof.
  intros C. unfold loop_body.
  destruct (evaluate_orders time row s) as [s1| |] eqn:E; simpl; try discriminate.
  pose proof (evaluate_orders_coherent _ _ C E) as C1.
  destruct (update_equity_record _ _ _ _ _ _ _) as [pr|]; simpl; try discriminate.
  intro H; inversion H; subst. exact C1.
Qed.

Lemma init_opens_gate (p : Params) ohlcv su :
  init p ohlcv = Ok su -> su_good_to_trade su = true.
Proof.
  unfold init, set_trade_mode.
  destruct (populate_indicators p ohlcv); simpl; try discriminate.
  destruct (negb (valid_mode _)); try discriminate.
  intro H; inversion H; reflexivity.
Qed.

(** Every state of a run is coherent: an open position has its behaviour
    bound, the gate open and [last_position_side] on its side. *)
Lemma reachable_coherent (s : Strategy) : reachable s -> coherent s.
Proof.
  induction 1 as [p ohlcv su ib lev ofr cfr Hi|s time row s' _ IH Hstep].
  - split; simpl.
    + intros sd Hs. discriminate.
    + rewrite (init_opens_gate _ _ Hi). discriminate.
  - eapply loop_body_coherent; eauto.
Qed.

End EnvelopeFacts.

(** ** The good-to-trade gate of the envelope engine *)

Section EnvelopeGate.
Import Tools Envelope EnvelopeRun.
Context {A : Arith}.
Local Open Scope nat_scope.
Local Open Scope list_scope.








Lemma run_rows_app (pre post : list (Z * Row)) (s : Strategy) :
  run_rows (pre ++ post) s = and_then (run_rows pre s) (run_rows post).
Proof.
  revert s. induction pre as [|[t r] pre IH]; intro s; simpl; [reflexivity|].
  destruct (loop_body t r s); simpl; auto.
Qed.

Lemma run_rows_reachable (pre : list (Z * Row)) (s s' : Strategy) :
  reachable s -> run_rows pre s = Continue s' -> reachable s'.
Proof.
  revert s. induction pre as [|[t r] pre IH]; intros s R H; simpl in H.
  - inversion H; subst; exact R.
  - destruct (loop_body t r s) as [s1| |] eqn:B; simpl in H; try discriminate.
    eapply IH; [|exact H]. eapply reach_step; eauto.
Qed.


(** The bar of a liquidation. *)
Lemma liquidation_bar time row (s : Strategy) sd :
  coherent s -> side (position s) = Some sd ->
  price_jumped sd row s = false ->
  check_for_sl (position s) (bar row) = Ok false ->
  check_for_liquidation (position s) (bar row) = Ok true ->
  loop_body time row s =
    Liquidated (liquidation_msg sd time (position s)) (reopened s).
Proof.
  intros C S J Hsl Hliq.
  destruct (proj1 C sd S) as [_ [G _]].
  unfold loop_body, evaluate_orders.
  rewrite (refresh_gate_open row s G). fold (reopened s). simpl.
  unfold evaluate_closes. simpl. rewrite S.
  unfold manage_position.
  change (price_jumped sd row (reopened s)) with (price_jumped sd row s).
  rewrite J. simpl. rewrite Hsl. simpl. rewrite Hliq. simpl. reflexivity.
Qed.

End EnvelopeGate.

(** ** Guard and stop-loss closes, liquidation *)

Section EnvelopeCloses.
Import Tools Envelope EnvelopeRun.
Context {A : Arith}.
Local Open Scope nat_scope.
Local Open Scope list_scope.



Lemma sma_run_rows_app (pre post : list (Z * SimpleSMA.Row))
  (s : SimpleSMA.Strategy) :
  SimpleSMA.run_rows (pre ++ post) s =
  and_then (SimpleSMA.run_rows pre s) (SimpleSMA.run_rows post).
Proof.
  revert s. induction pre as [|[t r] pre IH]; intro s; simpl; [reflexivity|].
  destruct (SimpleSMA.loop_body t r s); simpl; auto.
Qed.

(** C2. In both engines, when a run has reached a bar with a position
    open, and on that bar the liquidation check fires while no
    higher-priority close does, the whole run ends at that bar with the
    liquidation outcome, whatever bars follow; the ledger, the position,
    the balance and the equity record are those the bar started with. *)
Theorem C2_liquidation_halts_run
  (pre1 post1 : list (Z * SimpleSMA.Row)) (t1 : Z) (r1 : SimpleSMA.Row)
  (s01 s1 : SimpleSMA.Strategy) (sd1 : Side)
  (pre2 post2 : list (Z * Row)) (t2 : Z) (r2 : Row)
  (s02 s2 : Strategy) (sd2 : Side) :
  SimpleSMA.run_rows pre1 s01 = Continue s1 ->
  side (SimpleSMA.position s1) = Some sd1 ->
  check_for_sl (SimpleSMA.position s1) (SimpleSMA.bar r1) = Ok false ->
  check_for_liquidation (SimpleSMA.position s1) (SimpleSMA.bar r1) = Ok true ->
  reachable s02 ->
  run_rows pre2 s02 = Continue s2 ->
  side (position s2) = Some sd2 ->
  price_jumped sd2 r2 s2 = false ->
  check_for_sl (position s2) (bar r2) = Ok false ->
  check_for_liquidation (position s2) (bar r2) = Ok true ->
  SimpleSMA.run_rows (pre1 ++ (t1, r1) :: post1) s01 =
    Liquidated (SimpleSMA.liquidation_msg sd1 t1 (SimpleSMA.position s1)) s1 /\
  exists s2',
    run_rows (pre2 ++ (t2, r2) :: post2) s02 =
      Liquidated (liquidation_msg sd2 t2 (position s2)) s2' /\
    trades_info s2' = trades_info s2 /\ position s2' = position s2 /\
    balance s2' = balance s2 /\ equity_record s2' = equity_record s2.
Proof.
  intros Hpre1 S1 Hsl1 Hliq1 R Hpre2 S2 J Hsl2 Hliq2. split.
  - rewrite sma_run_rows_app, Hpre1. simpl.
    unfold SimpleSMA.loop_body, SimpleSMA.evaluate_orders. rewrite S1.
    unfold SimpleSMA.manage_position. rewrite Hsl1. simpl. rewrite Hliq1.
    reflexivity.
  - exists (reopened s2). rewrite run_rows_app, Hpre2. simpl.
    rewrite (liquidation_bar t2 r2
               (reachable_coherent (run_rows_reachable pre2 R Hpre2))
               S2 J Hsl2 Hliq2).
    simpl. repeat split; reflexivity.
Qed.

End EnvelopeCloses.

Section EnvelopeClosesOnSamples.
Import Tools Envelope EnvelopeRun Samples EnvelopeSamples SimpleSMASamples.
Local Open Scope list_scope.

Lemma env_start_reachable (lev : Z) :
  reachable (start env_setup (qz 1000) lev (qz 0) (qz 0)).
Proof.
  apply reach_start with (p := env_params) (ohlcv := env_ohlcv).
  vm_compute. reflexivity.
Qed.


Lemma env_long10_reachable : reachable env_long10.
Proof.
  apply reach_step with (s := env_start10) (time := 0%Z) (row := env_first_row).
  - apply env_start_reachable.
  - vm_compute. reflexivity.
Qed.




Lemma C2_liquidation_halts_run_witness :
  SimpleSMA.run_rows sma_two_rows sma_start10 = Continue sma_long10 /\
  side (SimpleSMA.position sma_long10) = Some Long /\
  check_for_sl (SimpleSMA.position sma_long10) (SimpleSMA.bar sma_liquidation_row)
    = Ok false /\
  check_for_liquidation (SimpleSMA.position sma_long10)
    (SimpleSMA.bar sma_liquidation_row) = Ok true /\
  reachable env_start10 /\
  run_rows [(0%Z, env_first_row)] env_start10 = Continue env_long10 /\
  side (position env_long10) = Some Long /\
  price_jumped Long liquidation_row env_long10 = false /\
  check_for_sl (position env_long10) (bar liquidation_row) = Ok false /\
  check_for_liquidation (position env_long10) (bar liquidation_row) = Ok true /\
  SimpleSMA.run_rows
    (sma_two_rows ++ (172800%Z, sma_liquidation_row) :: [(259200%Z, sma_third_row)])
    sma_start10 =
    Liquidated
      (SimpleSMA.liquidation_msg Long 172800 (SimpleSMA.position sma_long10))
      sma_long10 /\
  exists s2',
    run_rows
      ([(0%Z, env_first_row)] ++ (21600%Z, liquidation_row) :: [(43200%Z, recross_row)])
      env_start10 =
      Liquidated (liquidation_msg Long 21600 (position env_long10)) s2' /\
    trades_info s2' = trades_info env_long10 /\
    position s2' = position env_long10 /\
    balance s2' = balance env_long10 /\
    equity_record s2' = equity_record env_long10.
Proof.
  assert (H1 : SimpleSMA.run_rows sma_two_rows sma_start10 = Continue sma_long10)
    by (vm_compute; reflexivity).
  assert (H2 : side (SimpleSMA.position sma_long10) = Some Long)
    by (vm_compute; reflexivity).
  assert (H3 : check_for_sl (SimpleSMA.position sma_long10)
                 (SimpleSMA.bar sma_liquidation_row) = Ok false)
    by (vm_compute; reflexivity).
  assert (H4 : check_for_liquidation (SimpleSMA.position sma_long10)
                 (SimpleSMA.bar sma_liquidation_row) = Ok true)
    by (vm_compute; reflexivity).
  assert (H5 : run_rows [(0%Z, env_first_row)] env_start10 = Continue env_long10)
    by (vm_compute; reflexivity).
  assert (H6 : side (position env_long10) = Some Long)
    by (vm_compute; reflexivity).
  assert (H7 : price_jumped Long liquidation_row env_long10 = false)
    by (vm_compute; reflexivity).
  assert (H8 : check_for_sl (position env_long10) (bar liquidation_row) = Ok false)
    by (vm_compute; reflexivity).
  assert (H9 : check_for_liquidation (position env_long10) (bar liquidation_row)
               = Ok true)
    by (vm_compute; reflexivity).
  pose proof (C2_liquidation_halts_run
                sma_two_rows [(259200%Z, sma_third_row)] 172800
                sma_liquidation_row sma_start10
                [(0%Z, env_first_row)] [(43200%Z, recross_row)] 21600
                liquidation_row
                H1 H2 H3 H4 (env_start_reachable 10) H5 H6 H7 H8 H9) as [Ha Hb].
  exact (conj H1 (conj H2 (conj H3 (conj H4 (conj (env_start_reachable 10)
           (conj H5 (conj H6 (conj H7 (conj H8 (conj H9 (conj Ha Hb))))))))))).
Defined.

End EnvelopeClosesOnSamples.

(** ** The band watermark of the envelope engine *)

Section EnvelopeWatermark.
Import Tools Envelope EnvelopeRun.
Context {A : Arith}.
Local Open Scope nat_scope.
Local Open Scope list_scope.


Lemma band_loop_counts idxs bal time row (s s' : Strategy) :
  band_loop idxs bal time row s = Continue s' ->
  n_bands_hit s' = n_bands_hit s + fills (band_events idxs bal time row s) /\
  trades_info s' = trades_info s.
Proof.
  revert s. induction idxs as [|i rest IH]; intros s H; simpl in *.
  - inversion H; subst. unfold fills; simpl. split; [lia|reflexivity].
  - unfold band_body in H.
    destruct (band_trigger i row s) as [[sd|]|] eqn:T; simpl in H;
      try discriminate.
    + destruct (fill_band i sd bal time row s) as [s1| |] eqn:F; simpl in H;
        try discriminate.
      destruct (fill_band_effect _ _ _ _ _ _ F) as [Hn [Ht _]].
      destruct (IH _ H) as [Hn' Ht'].
      unfold fills in *; simpl. split; [lia|congruence].
    + destruct (IH _ H) as [Hn' Ht']. unfold fills in *; simpl. auto.
Qed.

Lemma ledger_not_longer [T : Type] (l : list T) (e : T) : l <> l ++ [e].
Proof.
  intro H. apply (f_equal (@List.length T)) in H.
  rewrite length_app in H. simpl in H. lia.
Qed.

(** A close phase that goes on either did nothing or closed the position,
    reset the watermark and barred the entries of this bar. *)
Lemma closes_cases time row (s s' : Strategy) :
  evaluate_closes time row s = Continue s' ->
  s' = s \/
  (exists e, trades_info s' = trades_info s ++ [e]) /\
  n_bands_hit s' = 0 /\ side (position s') = None /\
  good_to_trade s' && negb (position_was_closed s') = false.
Proof.
  unfold evaluate_closes.
  destruct (side (position s)) as [sd|];
    [|intro H; inversion H; left; reflexivity].
  unfold manage_position, close_trade, close.
  destruct (price_jumped sd row s); simpl.
  { destruct (calculate_pnl _ _ _); simpl; try discriminate.
    unfold shut_gate. intro H; inversion H; subst; simpl. right.
    split; [eexists; reflexivity|auto]. }
  destruct (check_for_sl (position s) (bar row)) as [[|]|]; simpl;
    try discriminate.
  { destruct (price_of (sl_price (position s))); simpl; try discriminate.
    destruct (calculate_pnl _ _ _); simpl; try discriminate.
    unfold shut_gate. intro H; inversion H; subst; simpl. right.
    split; [eexists; reflexivity|auto]. }
  destruct (check_for_liquidation (position s) (bar row)) as [[|]|]; simpl;
    try discriminate.
  destruct (column (close_flag sd row)) as [[|]|]; simpl; try discriminate.
  - destruct (calculate_pnl _ _ _); simpl; try discriminate.
    unfold mark_closed. intro H; inversion H; subst; simpl. right.
    split; [eexists; reflexivity|]. repeat split; auto.
    apply andb_false_r.
  - intro H; inversion H; left; reflexivity.
Qed.


End EnvelopeWatermark.

Section EnvelopeWatermarkOnSamples.
Import Tools Envelope EnvelopeRun Samples EnvelopeSamples.
Local Open Scope nat_scope.
Local Open Scope list_scope.


End EnvelopeWatermarkOnSamples.

(** ** The balance columns of a ledger entry *)

Section LedgerBalances.
Import Tools.
Context {A : Arith}.
Local Open Scope list_scope.










End LedgerBalances.

Section ConservationLaw.
Import Tools Samples SimpleSMASamples.
Local Open Scope Qc_scope.




End ConservationLaw.

(** ** Entries on the bar of a close *)

Section EntriesAfterClose.
Import Tools.
Context {A : Arith}.
Local Open Scope nat_scope.
Local Open Scope list_scope.

Lemma sma_close_trade_flat time price reason (s s' : SimpleSMA.Strategy) :
  SimpleSMA.close_trade time price reason s = Continue s' ->
  side (SimpleSMA.position s') = None /\
  exists e, SimpleSMA.trades_info s' = SimpleSMA.trades_info s ++ [e].
Proof.
  unfold SimpleSMA.close_trade, close.
  destruct (calculate_pnl _ _ _); simpl; [|discriminate].
  intro H; inversion H; subst; simpl. split; [reflexivity|].
  eexists; reflexivity.
Qed.

(** A bar of the single-entry engine that starts with a position open
    leaves the state as it is or closes the position and stays flat. *)
Lemma sma_open_bar sd time row (s s' : SimpleSMA.Strategy) :
  side (SimpleSMA.position s) = Some sd ->
  SimpleSMA.evaluate_orders time row s = Continue s' ->
  s' = s \/
  (side (SimpleSMA.position s') = None /\
   exists e, SimpleSMA.trades_info s' = SimpleSMA.trades_info s ++ [e]).
Proof.
  intro S. unfold SimpleSMA.evaluate_orders. rewrite S.
  unfold SimpleSMA.manage_position.
  repeat match goal with
  | |- context [try_in _ ?r _] => destruct r as [[|]|]; simpl
  | |- context [try_in _ ?r _] => destruct r; simpl
  end; try discriminate;
  try (intro H; right; exact (sma_close_trade_flat _ _ _ _ H));
  intro H; inversion H; left; reflexivity.
Qed.

(** A bar of the envelope engine on which a close took effect ends flat,
    with the watermark at zero, and its entry loop did not run. *)
Lemma env_closing_bar time row (s s' : Envelope.Strategy) :
  Envelope.evaluate_orders time row s = Continue s' ->
  (exists e, Envelope.trades_info s' = Envelope.trades_info s ++ [e]) ->
  side (Envelope.position s') = None /\
  EnvelopeRun.bar_band_events time row s = [] /\
  Envelope.n_bands_hit s' = 0.
Proof.
  unfold Envelope.evaluate_orders, EnvelopeRun.bar_band_events.
  destruct (Envelope.refresh_gate row s) as [s1| |] eqn:R; simpl;
    try discriminate.
  destruct (refresh_gate_account _ _ R) as [[_ [_ [_ [Ht1 _]]]] _].
  destruct (Envelope.evaluate_closes time row s1) as [s2| |] eqn:E; simpl;
    try discriminate.
  unfold Envelope.evaluate_entries.
  destruct (closes_cases _ _ _ E) as [->|[_ [Hn [Hs Hg]]]].
  - intros H [e He]. exfalso.
    apply (@ledger_not_longer _ (Envelope.trades_info s) e).
    rewrite <- He.
    destruct (Envelope.good_to_trade s1 && negb (Envelope.position_was_closed s1)).
    + destruct (band_loop_counts _ _ _ _ _ H) as [_ Ht]. congruence.
    + inversion H; subst. congruence.
  - rewrite Hg. intros H _. inversion H; subst. auto.
Qed.

(** A bar of the envelope engine that starts flat with the gate open runs
    the entry loop. *)
Lemma env_flat_bar time row (s g : Envelope.Strategy) :
  side (Envelope.position s) = None ->
  Envelope.refresh_gate row s = Continue g ->
  Envelope.good_to_trade g = true ->
  Envelope.evaluate_orders time row s =
    Envelope.band_loop (Envelope.band_range g) (Envelope.balance g) time row g.
Proof.
  intros S R G. unfold Envelope.evaluate_orders. rewrite R. simpl.
  destruct (refresh_gate_account _ _ R) as [[_ [_ [Hp _]]] [Hc _]].
  unfold Envelope.evaluate_closes. rewrite Hp, S. simpl.
  unfold Envelope.evaluate_entries. rewrite G, Hc. reflexivity.
Qed.

(** C5 (as amended). On a bar that starts flat (and, in the envelope
    engine, with the gate open once it has been updated) the entries are
    evaluated. A position that is closed on a bar is not re-entered on
    that bar: the single-entry engine ends the bar flat, and the envelope
    engine ends it flat without running its entry loop. *)
Theorem C5_entries_only_on_bars_without_close
  (time : Z) (r1 : SimpleSMA.Row) (f1 o1 o1' : SimpleSMA.Strategy) (sd1 : Side)
  (r2 : Envelope.Row) (f2 g2 o2 o2' : Envelope.Strategy) :
  side (SimpleSMA.position f1) = None ->
  side (SimpleSMA.position o1) = Some sd1 ->
  SimpleSMA.evaluate_orders time r1 o1 = Continue o1' ->
  side (Envelope.position f2) = None ->
  Envelope.refresh_gate r2 f2 = Continue g2 ->
  Envelope.good_to_trade g2 = true ->
  Envelope.evaluate_orders time r2 o2 = Continue o2' ->
  (exists e, Envelope.trades_info o2' = Envelope.trades_info o2 ++ [e]) ->
  SimpleSMA.evaluate_orders time r1 f1 = SimpleSMA.evaluate_entries time r1 f1 /\
  (o1' = o1 \/
   (side (SimpleSMA.position o1') = None /\
    exists e, SimpleSMA.trades_info o1' = SimpleSMA.trades_info o1 ++ [e])) /\
  Envelope.evaluate_orders time r2 f2 =
    Envelope.band_loop (Envelope.band_range g2) (Envelope.balance g2) time r2 g2 /\
  side (Envelope.position o2') = None /\
  EnvelopeRun.bar_band_events time r2 o2 = [] /\
  Envelope.n_bands_hit o2' = 0.
Proof.
  intros F1 O1 E1 F2 R2 G2 E2 C2.
  split; [unfold SimpleSMA.evaluate_orders; rewrite F1; reflexivity|].
  split; [eapply sma_open_bar; eassumption|].
  split; [eapply env_flat_bar; eassumption|].
  eapply env_closing_bar; eassumption.
Qed.

End EntriesAfterClose.

Section EntriesAfterCloseOnSamples.
Import Tools Samples EnvelopeSamples SimpleSMASamples.
Local Open Scope nat_scope.
Local Open Scope list_scope.

Lemma C5_entries_only_on_bars_without_close_witness :
  side (SimpleSMA.position sma_flat) = None /\
  side (SimpleSMA.position sma_long) = Some Long /\
  SimpleSMA.evaluate_orders 172800 sma_third_row sma_long = Continue sma_after_exit /\
  side (Envelope.position env_start) = None /\
  Envelope.refresh_gate exit_and_entry_row env_start = Continue env_start_refreshed /\
  Envelope.good_to_trade env_start_refreshed = true /\
  Envelope.evaluate_orders 172800 exit_and_entry_row env_long = Continue
    (final_state (Envelope.evaluate_orders 172800 exit_and_entry_row env_long)) /\
  side (Envelope.position
          (final_state (Envelope.evaluate_orders 172800 exit_and_entry_row env_long)))
    = None /\
  EnvelopeRun.bar_band_events 172800 exit_and_entry_row env_long = [].
Proof.
  assert (H1 : side (SimpleSMA.position sma_flat) = None)
    by (vm_compute; reflexivity).
  assert (H2 : side (SimpleSMA.position sma_long) = Some Long)
    by (vm_compute; reflexivity).
  assert (H3 : SimpleSMA.evaluate_orders 172800 sma_third_row sma_long
               = Continue sma_after_exit) by (vm_compute; reflexivity).
  assert (H4 : side (Envelope.position env_start) = None)
    by (vm_compute; reflexivity).
  assert (H5 : Envelope.refresh_gate exit_and_entry_row env_start
               = Continue env_start_refreshed) by (vm_compute; reflexivity).
  assert (H6 : Envelope.good_to_trade env_start_refreshed = true)
    by (vm_compute; reflexivity).
  assert (H7 : Envelope.evaluate_orders 172800 exit_and_entry_row env_long = Continue
            (final_state (Envelope.evaluate_orders 172800 exit_and_entry_row env_long)))
    by (vm_compute; reflexivity).
  assert (H8 : exists e,
            Envelope.trades_info
              (final_state (Envelope.evaluate_orders 172800 exit_and_entry_row env_long))
            = Envelope.trades_info env_long ++ [e])
    by (eexists; vm_compute; reflexivity).
  destruct (@C5_entries_only_on_bars_without_close QcArith 172800
              sma_third_row sma_flat sma_long sma_after_exit Long
              exit_and_entry_row env_start env_start_refreshed env_long _
              H1 H2 H3 H4 H5 H6 H7 H8)
    as [_ [_ [_ [Ha [Hb _]]]]].
  exact (conj H1 (conj H2 (conj H3 (conj H4 (conj H5 (conj H6 (conj H7
           (conj Ha Hb)))))))).
Defined.

(** C5, as stated, fails: the bar carries the exit signal of the open long
    and the entry signal of the first long band, and the gate is open; the
    long is closed by the signal exit and the bar ends flat, with no band
    looked at. *)
Lemma C5_no_entry_on_the_bar_of_a_signal_exit :
  side (Envelope.position env_long) = Some Long /\
  Envelope.good_to_trade env_long = true /\
  Envelope.close_long exit_and_entry_row = Some true /\
  Envelope.open_long exit_and_entry_row 0 = Some true /\
  Envelope.evaluate_orders 21600 exit_and_entry_row env_long = Continue after_exit /\
  map t_close_reason (Envelope.trades_info after_exit) = ["Exit long"] /\
  Envelope.good_to_trade after_exit = true /\
  side (Envelope.position after_exit) = None /\
  EnvelopeRun.bar_band_events 21600 exit_and_entry_row env_long = [].
Proof. repeat split; vm_compute; reflexivity. Qed.

End EntriesAfterCloseOnSamples.

(** ** Set-up and the sizing keys *)

Section SetupAndSizing.
Import Tools.
Context {A : Arith}.




End SetupAndSizing.

Section SetupAndSizingOnSamples.
Import Tools Samples ConfigSamples.



End SetupAndSizingOnSamples.

(** ** Trade mode "long" *)

Section LongOnly.
Import Tools.
Context {A : Arith}.

Lemma sma_long_mode_sets_ignore_shorts (p : SimpleSMA.Params) ohlcv su :
  SimpleSMA.mode p = Some "long" -> SimpleSMA.init p ohlcv = Ok su ->
  SimpleSMA.su_ignore_shorts su = true.
Proof.
  unfold SimpleSMA.init, SimpleSMA.set_trade_mode. intros ->. simpl.
  intro H; inversion H; reflexivity.
Qed.

Lemma sma_bar_never_opens_short time row (s : SimpleSMA.Strategy) :
  SimpleSMA.ignore_shorts s = true ->
  side (SimpleSMA.position s) <> Some Short ->
  let s' := final_state (SimpleSMA.loop_body time row s) in
  SimpleSMA.ignore_shorts s' = true /\ side (SimpleSMA.position s') <> Some Short.
Proof.
  intros I S.
  assert (E : let s1 := final_state (SimpleSMA.evaluate_orders time row s) in
              SimpleSMA.ignore_shorts s1 = true /\
              side (SimpleSMA.position s1) <> Some Short).
  { unfold SimpleSMA.evaluate_orders.
    destruct (side (SimpleSMA.position s)) as [sd|] eqn:Sd.
    - unfold SimpleSMA.manage_position, SimpleSMA.close_trade, close.
      repeat match goal with
      | |- context [rbind (calculate_pnl ?p ?x ?y) _] =>
        destruct (calculate_pnl p x y); simpl
      | |- context [try_in _ ?r _] => destruct r as [[|]|]; simpl
      | |- context [try_in _ ?r _] => destruct r; simpl
      end; simpl; (split; [exact I|]);
      first [discriminate | rewrite Sd; exact S].
    - unfold SimpleSMA.evaluate_entries. rewrite I.
      destruct (if SimpleSMA.ignore_longs s then Ok false
                else column (SimpleSMA.open_long row)) as [[|]|]; simpl.
      + unfold SimpleSMA.enter.
        destruct (SimpleSMA.calculate_initial_margin _ _ _ _) as [[m|]|]; simpl;
          try (split; [exact I|rewrite Sd; discriminate]).
        unfold open, calculate_liquidation_price, bound_behavior; simpl.
        destruct (behavior_liquidation_price _ _ _); simpl;
          split; auto; try discriminate. rewrite Sd; discriminate.
      + split; [exact I|rewrite Sd; discriminate].
      + split; [exact I|rewrite Sd; discriminate]. }
  unfold SimpleSMA.loop_body.
  destruct (SimpleSMA.evaluate_orders time row s) as [s1| |]; simpl in *; auto.
  destruct (update_equity_record _ _ _ _ _ _ _); simpl; auto.
Qed.

(** In the single-entry engine the mode "long" keeps every run free of
    shorts, whatever the short signal columns of the rows hold. *)
Lemma sma_long_mode_never_opens_short (p : SimpleSMA.Params) ohlcv su
  (ib : num) (lev : Z) (fee : num) (rows : list (Z * SimpleSMA.Row)) :
  SimpleSMA.mode p = Some "long" -> SimpleSMA.init p ohlcv = Ok su ->
  side (SimpleSMA.position
          (final_state (SimpleSMA.run_rows rows (SimpleSMA.start su ib lev fee))))
  <> Some Short.
Proof.
  intros M I.
  pose proof (sma_long_mode_sets_ignore_shorts _ _ M I) as G.
  assert (K : forall rows (s : SimpleSMA.Strategy),
    SimpleSMA.ignore_shorts s = true ->
    side (SimpleSMA.position s) <> Some Short ->
    side (SimpleSMA.position (final_state (SimpleSMA.run_rows rows s)))
    <> Some Short).
  { clear. induction rows as [|[t r] rest IH]; intros s Hi Hs; simpl; auto.
    pose proof (sma_bar_never_opens_short t r s Hi Hs) as [Hi' Hs'].
    destruct (SimpleSMA.loop_body t r s) as [s1| |]; simpl in *; auto. }
  apply K; simpl; [exact G|discriminate].
Qed.

End LongOnly.

Section LongOnlyOnSamples.
Import Tools Samples ConfigSamples.

(** C8 fails in the envelope engine. With mode "long" set-up succeeds and
    sets [ignore_shorts], yet the entry loop never reads it: on a flat bar
    without a long trigger it looks up the short signal of the band. When
    the input carries that column and it is true, a short is opened; when
    the column is missing, as set-up leaves it in this mode, the lookup
    raises. *)
Lemma C8_envelope_long_mode_opens_short :
  Envelope.su_ignore_shorts
    (env_setup_of env_long_only [(0%Z, env_row_with_short_columns)]) = true /\
  is_ok (Envelope.init env_long_only [(0%Z, env_row_with_short_columns)]) = true /\
  (exists s,
     run_long_only [(0%Z, env_row_with_short_columns)] = Continue s /\
     side (Envelope.position s) = Some Short) /\
  (exists s, run_long_only [(0%Z, env_plain_row)] = Crashed KeyError s).
Proof.
  split; [vm_compute; reflexivity|]. split; [vm_compute; reflexivity|].
  split; eexists; [split|]; vm_compute; reflexivity.
Qed.

End LongOnlyOnSamples.

(** ** Position arithmetic on the exact rationals *)

Section PositionArithmetic.
Import Tools.
Local Open Scope Qc_scope.





End PositionArithmetic.

Section PositionArithmeticOnSamples.
Import Tools Samples.
Local Open Scope Qc_scope.




End PositionArithmeticOnSamples.

(** ** Bounds on the liquidation price *)

Section PositionBounds.
Import Tools.
Local Open Scope Qc_scope.

Lemma this_Q2Qc (q : Q) : (this (Q2Qc q) == q)%Q.
Proof. simpl. apply Qred_correct. Qed.
Lemma this_plus (x y : Qc) : (this (x + y) == this x + this y)%Q.
Proof. unfold Qcplus. apply this_Q2Qc. Qed.
Lemma this_minus (x y : Qc) : (this (x - y) == this x - this y)%Q.
Proof. unfold Qcminus, Qcplus, Qcopp. rewrite !this_Q2Qc. reflexivity. Qed.
Lemma this_opp (x : Qc) : (this (- x) == - this x)%Q.
Proof. unfold Qcopp. apply this_Q2Qc. Qed.
Lemma this_mult (x y : Qc) : (this (x * y) == this x * this y)%Q.
Proof. unfold Qcmult. apply this_Q2Qc. Qed.
Lemma this_inv (x : Qc) : (this (/ x) == / this x)%Q.
Proof. unfold Qcinv. apply this_Q2Qc. Qed.
Lemma this_div (x y : Qc) : (this (x / y) == this x / this y)%Q.
Proof. unfold Qcdiv. rewrite this_mult, this_inv. reflexivity. Qed.

(** Turns an order statement on [Qc] into one on [Q]. *)
Ltac to_Q :=
  unfold Qcle, Qclt in *;
  repeat first
    [ rewrite this_plus in * | rewrite this_minus in * | rewrite this_opp in *
    | rewrite this_mult in * | rewrite this_div in * | rewrite this_inv in *
    | rewrite this_Q2Qc in * ].

Lemma Q_inv_leverage (z : Z) :
  (1 <= z)%Z -> (0 < / inject_Z z /\ / inject_Z z <= 1)%Q.
Proof.
  intro Hz.
  assert (H1 : (1 <= inject_Z z)%Q) by (unfold Qle, inject_Z; simpl; lia).
  assert (H0 : (0 < inject_Z z)%Q) by lra.
  split; [apply Qinv_lt_0_compat; exact H0|].
  apply Qle_shift_inv_r; [exact H0|]. lra.
Qed.

(** X4. For a leverage of at least 1 and a positive entry price, the
    liquidation price that [open] sets lies on the losing side of the entry
    price and within one entry price of it: not below zero for a long, not
    above twice the entry price for a short. *)
Theorem X4_liquidation_price_bounds
  (p : @Position QcArith) (time : Z) (sd : Side) (margin price : Qc)
  (reason : string) (sl tp : option Qc) :
  (1 <= leverage p)%Z -> 0 < price ->
  exists p',
    open p time sd margin price reason sl tp = Ok p' /\
    match sd with
    | Long => 0 <= liquidation_price p' /\ liquidation_price p' < price
    | Short => price < liquidation_price p' /\
               liquidation_price p' <= price + price
    end.
Proof.
  intros HL Hp.
  destruct (Q_inv_leverage HL) as [Hu0 Hu1].
  unfold open, calculate_liquidation_price, bound_behavior,
    behavior_liquidation_price; simpl.
  destruct (leverage p =? 0)%Z eqn:E; [apply Z.eqb_eq in E; lia|].
  destruct sd; simpl; eexists; (split; [reflexivity|]); simpl; unfold zlit;
    to_Q; unfold Qdiv; set (u := (/ inject_Z (leverage p))%Q) in *;
    set (x := this price) in *; split; nra.
Qed.


Lemma X4_liquidation_price_bounds_witness :
  (1 <= 10)%Z /\ 0 < Samples.qz 100 /\
  exists p',
    @open QcArith (new_position 10 (Samples.qz 0) (Samples.qz 0)) 0 Short
      (Samples.qz 50) (Samples.qz 100) "Open short" None None = Ok p' /\
    (Samples.qz 100 < liquidation_price p' /\
     liquidation_price p' <= Samples.qz 100 + Samples.qz 100).
Proof.
  assert (H1 : (1 <= 10)%Z) by lia.
  assert (H2 : 0 < Samples.qz 100) by reflexivity.
  exact (conj H1 (conj H2
    (@X4_liquidation_price_bounds
       (new_position 10 (Samples.qz 0) (Samples.qz 0)) 0 Short (Samples.qz 50)
       (Samples.qz 100) "Open short" None None H1 H2))).
Defined.

End PositionBounds.
